(** * AI-Deck-Generator: a shallow embedding of [deck-gen.py]

    The script chains five agents: [ResearchAgent] (web context),
    [OrchestratorAgent] (fixed plan), [ContentStrategistAgent] (content from
    the generation capability), [VisualAssetAgent] (image queries) and
    [PowerPointAssemblyAgent] (the deck).  The embedding keeps the Python
    control flow: values are the values [json.loads] produces, exceptions
    and [try]/[except] are explicit, and every call that leaves the process
    (HTTP, the generation capability, the file system, the libraries whose
    code is not in the script) is an operation of an environment [Env].

    Console narration ([print]) is not modelled, and neither are the
    module-level statements that run before any agent (loading [.env], the
    test of the Gemini key, [genai.configure]); the two search keys read
    there are part of [Env], as [os.getenv] gave them. *)

From Stdlib Require Import List String Ascii ZArith Bool Lia.
From Stdlib Require Import Strings.Byte.
From Stdlib Require Import Floats.SpecFloat.
Import ListNotations.
Open Scope string_scope.
Set Warnings "-register-all".

(** ** Python values *)

Definition bytes := list byte.

(** What [json.loads] returns, and so what flows through the pipeline.
    A [dict] keeps insertion order (iterating it yields its keys in that
    order), hence the association list; [dict_lookup] reads the first
    binding of a key.  A [str] is a sequence of characters, one [ascii]
    each. *)
Inductive pyval : Type :=
| PNone
| PBool (b : bool)
| PInt (z : Z)
| PFloat (f : spec_float)
| PStr (s : string)
| PList (l : list pyval)
| PDict (d : list (string * pyval)).

Definition dict := list (string * pyval).

Fixpoint dict_lookup (k : string) (d : dict) : option pyval :=
  match d with
  | [] => None
  | (k', v) :: d' => if String.eqb k k' then Some v else dict_lookup k d'
  end.

Definition dict_keys (d : dict) : list string := map fst d.

(** The exceptions the script can meet.  All of them derive from
    [Exception], so every [except Exception] clause catches each one. *)
Inductive exn : Type :=
| TypeError
| AttributeError
| KeyError
| IndexError
| ValueError
| RequestException
| OSError
| OtherError (tag : string).

Inductive result (A : Type) : Type :=
| Ok (a : A)
| Raise (e : exn).
Arguments Ok {A} a.
Arguments Raise {A} e.

(** *** Strings *)

Fixpoint is_prefix (p s : string) : bool :=
  match p, s with
  | EmptyString, _ => true
  | String a p', String b s' => Ascii.eqb a b && is_prefix p' s'
  | String _ _, EmptyString => false
  end.

(** [sub in s] on two [str]. *)
Fixpoint str_contains (sub s : string) : bool :=
  is_prefix sub s ||
  match s with
  | EmptyString => false
  | String _ s' => str_contains sub s'
  end.

(** [str.isspace] for one character (code points below 256). *)
Definition is_space (c : ascii) : bool :=
  let n := nat_of_ascii c in
  (((9 <=? n) && (n <=? 13)) || ((28 <=? n) && (n <=? 32))
   || (n =? 133) || (n =? 160))%nat.

Fixpoint lstrip (s : string) : string :=
  match s with
  | EmptyString => EmptyString
  | String c s' => if is_space c then lstrip s' else s
  end.

Fixpoint rstrip (s : string) : string :=
  match s with
  | EmptyString => EmptyString
  | String c s' =>
      match rstrip s' with
      | EmptyString => if is_space c then EmptyString else String c EmptyString
      | r => String c r
      end
  end.

(** [s.strip()] *)
Definition strip (s : string) : string := rstrip (lstrip s).

(** [sep.join(l)] on a list of [str]. *)
Fixpoint join (sep : string) (l : list string) : string :=
  match l with
  | [] => ""
  | [s] => s
  | s :: l' => s ++ sep ++ join sep l'
  end.

(** [s.replace(old, new)] for a non-empty [old]: occurrences are replaced
    left to right and do not overlap.  [skip] counts the characters of the
    occurrence being replaced that are still to be dropped. *)
Fixpoint replace_from (old new : string) (skip : nat) (s : string) : string :=
  match s with
  | EmptyString => EmptyString
  | String c s' =>
      match skip with
      | S k => replace_from old new k s'
      | O =>
          if is_prefix old s
          then new ++ replace_from old new (String.length old - 1) s'
          else String c (replace_from old new 0 s')
      end
  end.

Definition replace (old new s : string) : string := replace_from old new 0 s.

(** *** Operators and methods on values *)

(** [bool(v)] *)
Definition truthy (v : pyval) : bool :=
  match v with
  | PNone => false
  | PBool b => b
  | PInt z => negb (z =? 0)%Z
  | PFloat (S754_zero _) => false
  | PFloat _ => true
  | PStr s => negb (s =? "")
  | PList l => match l with [] => false | _ => true end
  | PDict d => match d with [] => false | _ => true end
  end.

(** [v == s] for a [str] literal [s]. *)
Definition eq_str (v : pyval) (s : string) : bool :=
  match v with
  | PStr s' => String.eqb s' s
  | _ => false
  end.

(** [v.get(k, default)]: only a [dict] has the method. *)
Definition py_get (v : pyval) (k : string) (default : pyval) : result pyval :=
  match v with
  | PDict d =>
      match dict_lookup k d with
      | Some x => Ok x
      | None => Ok default
      end
  | _ => Raise AttributeError
  end.

(** [k in v] for a [str] literal [k]. *)
Definition py_in (k : string) (v : pyval) : result bool :=
  match v with
  | PDict d => Ok (match dict_lookup k d with Some _ => true | None => false end)
  | PList l => Ok (existsb (fun x => eq_str x k) l)
  | PStr s => Ok (str_contains k s)
  | _ => Raise TypeError
  end.

(** [v[k]] for a [str] literal [k]. *)
Definition py_getitem (v : pyval) (k : string) : result pyval :=
  match v with
  | PDict d =>
      match dict_lookup k d with
      | Some x => Ok x
      | None => Raise KeyError
      end
  | _ => Raise TypeError
  end.

(** [v[0]] *)
Definition py_first (v : pyval) : result pyval :=
  match v with
  | PList l => match l with x :: _ => Ok x | [] => Raise IndexError end
  | PStr s =>
      match s with
      | String c _ => Ok (PStr (String c EmptyString))
      | EmptyString => Raise IndexError
      end
  | PDict _ => Raise KeyError
  | _ => Raise TypeError
  end.

Fixpoint chars (s : string) : list pyval :=
  match s with
  | EmptyString => []
  | String c s' => PStr (String c EmptyString) :: chars s'
  end.

(** The items a [for x in v] loop visits. *)
Definition py_iter (v : pyval) : result (list pyval) :=
  match v with
  | PList l => Ok l
  | PStr s => Ok (chars s)
  | PDict d => Ok (map PStr (dict_keys d))
  | _ => Raise TypeError
  end.

(** [isinstance(v, list)] *)
Definition is_list (v : pyval) : bool :=
  match v with
  | PList _ => true
  | _ => false
  end.

(** A value used where the libraries take a [str]. *)
Definition as_str (v : pyval) : result string :=
  match v with
  | PStr s => Ok s
  | _ => Raise TypeError
  end.

Fixpoint all_str (l : list pyval) : result (list string) :=
  match l with
  | [] => Ok []
  | v :: l' =>
      match as_str v with
      | Raise e => Raise e
      | Ok s =>
          match all_str l' with
          | Raise e => Raise e
          | Ok r => Ok (s :: r)
          end
      end
  end.

(** [sep.join(l)] on a list of values: a [TypeError] unless every item is
    a [str]. *)
Definition py_join (sep : string) (l : list pyval) : result string :=
  match all_str l with
  | Ok ss => Ok (join sep ss)
  | Raise e => Raise e
  end.

(** *** Configuration values *)

(** [needle in key] on a value [os.getenv] returned: a [TypeError] on
    [None]. *)
Definition key_contains (needle : string) (key : option string) : result bool :=
  match key with
  | Some k => Ok (str_contains needle k)
  | None => Raise TypeError
  end.

(** A configuration value inside an f-string. *)
Definition format_key (key : option string) : string :=
  match key with
  | Some k => k
  | None => "None"
  end.

(** ** The deck

    What python-pptx holds for a presentation, as far as the script sets
    it: a slide's layout (its index in [prs.slide_layouts]), the title, the
    text of placeholder 1 on a title slide, the paragraphs added to the
    body text frame, and the picture. *)

Record paragraph : Type := {
  p_text : string;
  p_level : nat;
  p_space_after : nat;   (* Pt *)
  p_font_size : nat      (* Pt *)
}.

Inductive auto_size : Type := TEXT_TO_FIT_SHAPE.

(** A text frame after [tf.clear()]: [tf_paragraphs] are the paragraphs
    that [tf.add_paragraph()] appended since. *)
Record text_frame : Type := {
  tf_word_wrap : bool;
  tf_auto_size : auto_size;
  tf_paragraphs : list paragraph
}.

(** [add_picture(stream, ph.left, ph.top, width=ph.width, height=ph.height)]:
    the picture takes the bounds of placeholder [pic_region]. *)
Record picture : Type := {
  pic_png : bytes;
  pic_region : nat
}.

Record rendered_slide : Type := {
  layout : nat;
  title_text : string;
  subtitle : option string;
  body : option text_frame;
  image : option picture
}.

Definition deck := list rendered_slide.

(** ** The environment *)

(** A [requests.Response]. *)
Record response : Type := {
  status_code : Z;
  text : string;
  json : result pyval;     (* response.json() *)
  content : bytes
}.

(** [response.raise_for_status()] *)
Definition raise_for_status (r : response) : result unit :=
  if ((400 <=? status_code r) && (status_code r <? 600))%Z
  then Raise RequestException
  else Ok tt.

(** Everything the script reaches outside its own code.  [world] is the
    state of the outside (network, generation service, disk); an operation
    that depends on it or changes it takes and returns a [world]. *)
Class Env : Type := {
  world : Type;
  (* module-level configuration: what os.getenv returned, None when the
     variable is unset *)
  GOOGLE_SEARCH_API_KEY : option string;
  CUSTOM_SEARCH_ENGINE_ID : option string;
  (* requests.get(url, headers=..., timeout=10) *)
  requests_get : pyval -> list (string * string) -> world -> result response * world;
  (* urllib.parse.quote on a str *)
  quote : string -> string;
  (* the texts of soup.find_all('a', class_='result__snippet') for a page *)
  result_snippets : string -> result (list string);
  (* model.generate_content(prompt) followed by response.text *)
  generate_content : string -> world -> result string * world;
  json_loads : string -> result pyval;
  json_dumps : pyval -> string;
  (* the two instruction templates, around their arguments *)
  content_prompt : string -> string -> string -> string;
  image_query_prompt : string -> string;
  (* Image.open(BytesIO(data)) followed by image.save(stream, format='PNG') *)
  convert_to_png : bytes -> result bytes;
  (* prs.save(stream) *)
  pptx_save : deck -> bytes;
  (* open(name, 'wb') followed by f.write(data) *)
  write_file : string -> bytes -> world -> result unit * world
}.

(** ** State, exceptions and [try] *)

(** The calls the properties below speak about, in the order made.  The
    trace is a record kept beside the program: the script has no
    counterpart for [log]. *)
Inductive call : Type :=
| ImageSearch (query : pyval)               (* _get_image_for_slide(query) *)
| SaveDeck (slides : deck)                  (* prs.save(file_stream) *)
| WriteFile (name : string) (data : bytes). (* open(name, 'wb') *)

Section Monad.

Context {E : Env}.

Record state : Type := {
  st_world : world;
  st_trace : list call
}.

Definition M (A : Type) : Type := state -> result A * state.

Definition ret {A} (a : A) : M A := fun s => (Ok a, s).

Definition bind {A B} (m : M A) (k : A -> M B) : M B :=
  fun s =>
    match m s with
    | (Ok a, s') => k a s'
    | (Raise e, s') => (Raise e, s')
    end.

(** [try: m  except Exception: h] *)
Definition try_except {A} (m : M A) (h : exn -> M A) : M A :=
  fun s =>
    match m s with
    | (Ok a, s') => (Ok a, s')
    | (Raise e, s') => h e s'
    end.

(** A computation inside the process: it returns or raises and leaves the
    state alone. *)
Definition lift {A} (r : result A) : M A := fun s => (r, s).

(** An operation of the environment, run on the current world. *)
Definition extern {A} (op : world -> result A * world) : M A :=
  fun s =>
    let (r, w) := op (st_world s) in
    (r, {| st_world := w; st_trace := st_trace s |}).

Definition log (c : call) : M unit :=
  fun s => (Ok tt, {| st_world := st_world s; st_trace := st_trace s ++ [c] |}).

(** A list comprehension or [for] loop whose body may raise. *)
Fixpoint for_each {A B} (f : A -> result B) (l : list A) : result (list B) :=
  match l with
  | [] => Ok []
  | x :: l' =>
      match f x with
      | Raise e => Raise e
      | Ok y =>
          match for_each f l' with
          | Raise e => Raise e
          | Ok r => Ok (y :: r)
          end
      end
  end.

(** A [for] loop that updates [acc] and may act on the world. *)
Fixpoint for_loop {A S} (body : S -> A -> M S) (l : list A) (acc : S) : M S :=
  match l with
  | [] => ret acc
  | x :: l' => bind (body acc x) (for_loop body l')
  end.

End Monad.

Notation "x <- m ;; k" := (bind m (fun x => k))
  (at level 61, m at next level, right associativity).
Notation "m ;;; k" := (bind m (fun _ => k))
  (at level 61, right associativity).

Section Agents.

Context {E : Env}.

(** ** ResearchAgent *)

(** The [try] body of [_search_duckduckgo] up to the list [snippets]. *)
Definition duckduckgo_snippets (topic : string) : M (list string) :=
  let search_url := "https://html.duckduckgo.com/html/?q=" ++ quote topic in
  let headers := [("User-Agent", "Mozilla/5.0")] in
  response <- extern (requests_get (PStr search_url) headers) ;;
  lift (raise_for_status response) ;;;
  lift (result_snippets (text response)).

Definition _search_duckduckgo (topic : string) : M string :=
  try_except
    (snippets <- duckduckgo_snippets topic ;;
     ret (match snippets with
          | [] => ""
          | _ => join " " (firstn 3 snippets)
          end))
    (fun _ => ret "").

(** The test that guards both uses of the Google API; [or] looks at the
    second key only when the first test is false. *)
Definition search_keys_missing : result bool :=
  match key_contains "YOUR_GOOGLE_SEARCH_API_KEY" GOOGLE_SEARCH_API_KEY with
  | Raise e => Raise e
  | Ok true => Ok true
  | Ok false => key_contains "YOUR_CSE_ID" CUSTOM_SEARCH_ENGINE_ID
  end.

(** The [try] body of [_search_google] up to the list [snippets]. *)
Definition google_snippets (topic : string) : M (list pyval) :=
  let api_url :=
    "https://www.googleapis.com/customsearch/v1?key="
    ++ format_key GOOGLE_SEARCH_API_KEY
    ++ "&cx=" ++ format_key CUSTOM_SEARCH_ENGINE_ID ++ "&q=" ++ quote topic in
  response <- extern (requests_get (PStr api_url) []) ;;
  lift (raise_for_status response) ;;;
  search_results <- lift (json response) ;;
  items <- lift (py_get search_results "items" (PList [])) ;;
  items <- lift (py_iter items) ;;
  lift (for_each (fun item => py_get item "snippet" (PStr "")) items).

(** The key test stands before the [try]: a [TypeError] it raises is not
    caught here. *)
Definition _search_google (topic : string) : M string :=
  keys_missing <- lift search_keys_missing ;;
  if keys_missing then ret ""
  else
    try_except
      (snippets <- google_snippets topic ;;
       match snippets with
       | [] => ret ""
       | _ => lift (py_join " " (firstn 3 snippets))
       end)
      (fun _ => ret "").

Definition no_context : string := "No specific web context found.".

Definition search_web_for_topic (topic : string) : M string :=
  ddg_context <- _search_duckduckgo topic ;;
  google_context <- _search_google topic ;;
  let combined_context := strip (ddg_context ++ " " ++ google_context) in
  if negb (combined_context =? "") then ret combined_context
  else ret no_context.

(** ** OrchestratorAgent *)

Definition plan_item (type purpose : string) : pyval :=
  PDict [("type", PStr type); ("purpose", PStr purpose)].

Definition create_presentation_plan (topic web_context : string) : pyval :=
  PDict
    [("slides",
      PList
        [plan_item "title_slide" "A compelling title for the presentation.";
         plan_item "overview_slide" "An overview describing key talking points.";
         plan_item "key_point_slide"
           ("The first key point or trend about " ++ topic ++ ".");
         plan_item "key_point_slide"
           ("The second key point or argument about " ++ topic ++ ".");
         plan_item "key_point_slide"
           ("The third key point or trend about " ++ topic ++ ".");
         plan_item "key_point_slide"
           ("The fourth key point or argument about " ++ topic ++ ".");
         plan_item "conclusion_slide" "Give Concluding Points."])].

(** ** ContentStrategistAgent and VisualAssetAgent *)

(** [response.text.strip().replace("```json", "").replace("```", "")] *)
Definition strip_fences (response_text : string) : string :=
  replace "```" "" (replace "```json" "" (strip response_text)).

(** Returns the parsed content, or [None] ([PNone]) when the call or the
    parse raised. *)
Definition generate_presentation_content
    (topic web_context : string) (plan : pyval) : M pyval :=
  let plan_str := json_dumps plan in
  let prompt := content_prompt topic web_context plan_str in
  try_except
    (response_text <- extern (generate_content prompt) ;;
     let content_json := strip_fences response_text in
     lift (json_loads content_json))
    (fun _ => ret PNone).

Definition add_image_queries_to_content (content : pyval) : M pyval :=
  let content_str := json_dumps content in
  let prompt := image_query_prompt content_str in
  try_except
    (response_text <- extern (generate_content prompt) ;;
     let enriched_content_json := strip_fences response_text in
     lift (json_loads enriched_content_json))
    (fun _ => ret content).

(** ** PowerPointAssemblyAgent *)

(** [urllib.parse.quote(query)]: anything but a [str] is refused. *)
Definition py_quote (query : pyval) : result string :=
  match query with
  | PStr s => Ok (quote s)
  | _ => Raise TypeError
  end.

(** The [try] body of [_get_image_for_slide]. *)
Definition fetch_image (query : pyval) : M (option bytes) :=
  q <- lift (py_quote query) ;;
  let api_url :=
    "https://www.googleapis.com/customsearch/v1?key="
    ++ format_key GOOGLE_SEARCH_API_KEY
    ++ "&cx=" ++ format_key CUSTOM_SEARCH_ENGINE_ID ++ "&q=" ++ q
    ++ "&searchType=image&num=1" in
  response <- extern (requests_get (PStr api_url) []) ;;
  lift (raise_for_status response) ;;;
  search_results <- lift (json response) ;;
  has_items <- lift (py_in "items" search_results) ;;
  no_items <-
    (if negb has_items then ret true
     else items <- lift (py_getitem search_results "items") ;;
          ret (negb (truthy items))) ;;
  if no_items then ret None
  else
    items <- lift (py_getitem search_results "items") ;;
    first <- lift (py_first items) ;;
    image_url <- lift (py_getitem first "link") ;;
    image_response <- extern (requests_get image_url []) ;;
    lift (raise_for_status image_response) ;;;
    output_stream <- lift (convert_to_png (content image_response)) ;;
    ret (Some output_stream).

(** The call is recorded with its argument; then comes the key test,
    before the [try], so a [TypeError] it raises is not caught here. *)
Definition _get_image_for_slide (query : pyval) : M (option bytes) :=
  log (ImageSearch query) ;;;
  keys_missing <- lift search_keys_missing ;;
  if keys_missing then ret None
  else try_except (fetch_image query) (fun _ => ret None).

(** One pass of the loop [for point in points], with font size [size]. *)
Definition add_paragraph (size : nat) (point : pyval) : result paragraph :=
  match as_str point with
  | Ok s =>
      Ok {| p_text := s; p_level := 0; p_space_after := 8; p_font_size := size |}
  | Raise e => Raise e
  end.

(** [tf.clear()], the two settings, and the loop over [points]. *)
Definition fill_text_frame (size : nat) (points : pyval) : result text_frame :=
  match py_iter points with
  | Raise e => Raise e
  | Ok items =>
      match for_each (add_paragraph size) items with
      | Raise e => Raise e
      | Ok ps =>
          Ok {| tf_word_wrap := true;
                tf_auto_size := TEXT_TO_FIT_SHAPE;
                tf_paragraphs := ps |}
      end
  end.

(** A slide of layout [lay] with a title and a bulleted body. *)
Definition content_slide (lay : nat) (title points : pyval) (size : nat)
    (pic : option picture) : result rendered_slide :=
  match as_str title with
  | Raise e => Raise e
  | Ok t =>
      match fill_text_frame size points with
      | Raise e => Raise e
      | Ok tf =>
          Ok {| layout := lay; title_text := t; subtitle := None;
                body := Some tf; image := pic |}
      end
  end.

(** [prs.slides.add_slide(...)], with the slide as the branch leaves it. *)
Definition add_slide (prs : deck) (slide : rendered_slide) : deck :=
  (prs ++ [slide])%list.

(** The body of the loop over [content['slides']]; [prs] holds the slides
    added so far. *)
Definition render_slide (topic : string) (prs : deck) (slide_data : pyval)
    : M deck :=
  slide_type <- lift (py_get slide_data "type" PNone) ;;
  title <- lift (py_get slide_data "title" (PStr "Untitled Slide")) ;;
  points <- lift (py_get slide_data "points" (PList [])) ;;
  if eq_str slide_type "title_slide" then
    t <- lift (as_str title) ;;
    ret (add_slide prs
           {| layout := 0; title_text := t;
              subtitle := Some ("A Presentation on " ++ topic);
              body := None; image := None |})
  else if eq_str slide_type "overview_slide"
          || eq_str slide_type "conclusion_slide" then
    slide <- lift (content_slide 1 title points 15 None) ;;
    ret (add_slide prs slide)
  else if eq_str slide_type "key_point_slide" then
    image_query <- lift (py_get slide_data "image_query" (PStr topic)) ;;
    image_stream <- _get_image_for_slide image_query ;;
    match image_stream with
    | Some png =>
        slide <- lift (content_slide 3 title points 18
                         (Some {| pic_png := png; pic_region := 2 |})) ;;
        ret (add_slide prs slide)
    | None =>
        slide <- lift (content_slide 1 title points 18 None) ;;
        ret (add_slide prs slide)
    end
  else ret prs.

(** Returns the saved stream, or [None] when [content] has no list under
    ['slides']. *)
Definition create_powerpoint_deck (content : pyval) (topic : string)
    : M (option bytes) :=
  let prs : deck := [] in
  has_slides <- lift (py_in "slides" content) ;;
  malformed <-
    (if negb has_slides then ret true
     else slides <- lift (py_getitem content "slides") ;;
          ret (negb (is_list slides))) ;;
  if malformed then ret None
  else
    slides <- lift (py_getitem content "slides") ;;
    slides <- lift (py_iter slides) ;;
    prs <- for_loop (render_slide topic) slides prs ;;
    log (SaveDeck prs) ;;;
    ret (Some (pptx_save prs)).

(** ** Main execution block *)

(** How a run ends when no exception escapes. *)
Inductive outcome : Type :=
| ExitNoPlan        (* exit() after the plan *)
| ExitNoContent     (* exit() after content generation *)
| Saved (name : string)
| SaveFailed
| NotAssembled.

(** The block under [SAVE THE FINAL PRESENTATION]. *)
Definition save_presentation (ppt_stream : option bytes)
    (presentation_topic : string) : M outcome :=
  match ppt_stream with
  | Some data =>
      let output_filename := "presentation-" ++ presentation_topic ++ ".pptx" in
      try_except
        (log (WriteFile output_filename data) ;;;
         extern (write_file output_filename data) ;;;
         ret (Saved output_filename))
        (fun _ => ret SaveFailed)
  | None => ret NotAssembled
  end.

Definition main (presentation_topic : string) : M outcome :=
  web_context <- search_web_for_topic presentation_topic ;;
  let presentation_plan :=
    create_presentation_plan presentation_topic web_context in
  if negb (truthy presentation_plan) then ret ExitNoPlan
  else
    initial_content <-
      generate_presentation_content presentation_topic web_context
        presentation_plan ;;
    if negb (truthy initial_content) then ret ExitNoContent
    else
      enriched_content <- add_image_queries_to_content initial_content ;;
      ppt_stream <- create_powerpoint_deck enriched_content presentation_topic ;;
      save_presentation ppt_stream presentation_topic.

End Agents.

(** ** Reading values back *)

(** [plan['slides']], and the fields of an item, for the statements. *)
Definition slides_of (v : pyval) : list pyval :=
  match py_getitem v "slides" with
  | Ok (PList l) => l
  | _ => []
  end.

Definition field (k : string) (item : pyval) : pyval :=
  match py_get item k PNone with
  | Ok v => v
  | Raise _ => PNone
  end.

Definition str_field (k : string) (item : pyval) : string :=
  match field k item with
  | PStr s => s
  | _ => ""
  end.

(** The bullets of a rendered slide. *)
Definition bullets (s : rendered_slide) : list paragraph :=
  match body s with
  | Some tf => tf_paragraphs tf
  | None => []
  end.

(** ** Scripted environments

    Closed instances of [Env]: the outside answers by fixed functions, so
    the pipeline runs by computation. *)

Definition scripted_keys (key cse : option string)
    (http : pyval -> result response)
    (snippets : string -> result (list string))
    (llm : string -> result string)
    (loads : string -> result pyval)
    (png : bytes -> result bytes) : Env :=
  {| world := unit;
     GOOGLE_SEARCH_API_KEY := key;
     CUSTOM_SEARCH_ENGINE_ID := cse;
     requests_get := fun url _ w => (http url, w);
     quote := fun s => s;
     result_snippets := snippets;
     generate_content := fun prompt w => (llm prompt, w);
     json_loads := loads;
     json_dumps := fun _ => "";
     content_prompt := fun topic _ _ => topic;
     image_query_prompt := fun s => s;
     convert_to_png := png;
     pptx_save := fun _ => [];
     write_file := fun _ _ w => (Ok tt, w) |}.

(** Both search keys are set in the [.env] file. *)
Definition scripted (key cse : string) :=
  scripted_keys (Some key) (Some cse).

(** No network, no generation service. *)
Definition offline : Env :=
  scripted "key" "cse"
    (fun _ => Raise RequestException)
    (fun _ => Ok [])
    (fun _ => Raise (OtherError "unavailable"))
    (fun _ => Raise ValueError)
    (fun _ => Raise OSError).

Definition start {E : Env} (w : world) : state :=
  {| st_world := w; st_trace := [] |}.

(** ** Properties of computations *)

(** [m] adds nothing to the trace, whether it returns or raises. *)
Definition keeps_trace {E : Env} {A} (m : M A) : Prop :=
  forall s, st_trace (snd (m s)) = st_trace s.

(** [m] returns: no exception escapes it. *)
Definition never_raises {E : Env} {A} (m : M A) : Prop :=
  forall s, exists a s', m s = (Ok a, s').

(** The enrichment call of [add_image_queries_to_content] fails in world
    [w]: the generation capability raises, or its answer does not parse. *)
Definition enrichment_fails {E : Env} (content : pyval) (w : world) : Prop :=
  match generate_content (image_query_prompt (json_dumps content)) w with
  | (Raise _, _) => True
  | (Ok response_text, _) =>
      match json_loads (strip_fences response_text) with
      | Raise _ => True
      | Ok _ => False
      end
  end.

(** The generation capability answers the content request in world [w],
    and the answer, fences stripped, does not parse. *)
Definition content_unparsable {E : Env} (topic web_context : string)
    (w : world) : Prop :=
  let plan := create_presentation_plan topic web_context in
  match generate_content (content_prompt topic web_context (json_dumps plan)) w with
  | (Ok response_text, _) =>
      match json_loads (strip_fences response_text) with
      | Raise _ => True
      | Ok _ => False
      end
  | (Raise _, _) => False
  end.

(** ** Slide entries *)

Definition entry_type (e : pyval) : pyval := field "type" e.

Definition is_title (e : pyval) : bool := eq_str (entry_type e) "title_slide".

Definition is_summary (e : pyval) : bool :=
  eq_str (entry_type e) "overview_slide"
  || eq_str (entry_type e) "conclusion_slide".

Definition is_key_point (e : pyval) : bool :=
  eq_str (entry_type e) "key_point_slide".

(** The entry has one of the four types the loop renders. *)
Definition recognized (e : pyval) : bool :=
  is_title e || is_summary e || is_key_point e.

(** [e.get('title', 'Untitled Slide')], [e.get('points', [])] and
    [e.get('image_query', topic)] on a dict [e]. *)
Definition entry_title (e : pyval) : pyval :=
  match py_get e "title" (PStr "Untitled Slide") with
  | Ok v => v
  | Raise _ => PNone
  end.

Definition entry_points (e : pyval) : pyval :=
  match py_get e "points" (PList []) with
  | Ok v => v
  | Raise _ => PNone
  end.

Definition entry_query (topic : string) (e : pyval) : pyval :=
  match py_get e "image_query" (PStr topic) with
  | Ok v => v
  | Raise _ => PNone
  end.

Definition is_str (v : pyval) : bool :=
  match v with
  | PStr _ => true
  | _ => false
  end.

(** [v] can be iterated and yields only [str] items. *)
Definition text_items (v : pyval) : bool :=
  match py_iter v with
  | Ok items => forallb is_str items
  | Raise _ => false
  end.

(** The texts [v] yields. *)
Definition texts_of (v : pyval) : list string :=
  match py_iter v with
  | Ok items =>
      match all_str items with
      | Ok ss => ss
      | Raise _ => []
      end
  | Raise _ => []
  end.

(** An entry the loop body can render or skip: a dict and, when its type
    is recognized, a [str] title and (except on a title slide, which does
    not use them) points that yield [str] items; a missing key counts with
    its default. *)
Definition well_formed (e : pyval) : bool :=
  match e with
  | PDict _ =>
      if is_title e then is_str (entry_title e)
      else if is_summary e || is_key_point e
           then is_str (entry_title e) && text_items (entry_points e)
           else true
  | _ => false
  end.

(** [s] is a rendering of entry [e]: the entry's title and points, on a
    layout its type allows (0 title, 1 title and content, 3 two content),
    with a picture exactly on the two-content layout. *)
Definition renders (e : pyval) (s : rendered_slide) : Prop :=
  PStr (title_text s) = entry_title e
  /\ (if is_title e then layout s = 0 /\ image s = None /\ bullets s = []
      else
        map p_text (bullets s) = texts_of (entry_points e)
        /\ if is_key_point e
           then Forall (fun p => p_font_size p = 18) (bullets s)
                /\ ((layout s = 3 /\ image s <> None)
                    \/ (layout s = 1 /\ image s = None))
           else Forall (fun p => p_font_size p = 15) (bullets s)
                /\ layout s = 1 /\ image s = None).

(** The image queries the loop passes on, one per key point entry. *)
Definition image_searches (topic : string) (l : list pyval) : list call :=
  map (fun e => ImageSearch (entry_query topic e)) (filter is_key_point l).

(** The guard of [create_powerpoint_deck] finds no list under ['slides']:
    ['slides' in content] is false, or [content['slides']] is there and is
    not a list. *)
Definition lacks_slides_list (content : pyval) : Prop :=
  py_in "slides" content = Ok false
  \/ exists v, py_getitem content "slides" = Ok v /\ is_list v = false.

(** The key test returns: the first key is set, and so is the second when
    the first holds no placeholder. *)
Definition key_test_returns {E : Env} : bool :=
  match search_keys_missing with
  | Ok _ => true
  | Raise _ => false
  end.

(** In world [w] no picture can be had for [query]: the key test finds a
    placeholder, or it finds none and the [try] body of
    [_get_image_for_slide] raises at some step or finds no item. *)
Definition image_unavailable {E : Env} (query : pyval) (w : world) : Prop :=
  search_keys_missing = Ok true
  \/ (search_keys_missing = Ok false
      /\ forall t,
           match fetch_image query {| st_world := w; st_trace := t |} with
           | (Raise _, _) => True
           | (Ok None, _) => True
           | (Ok (Some _), _) => False
           end).

(** The image search is open to the key point entries of [l]: there is
    none among them, or the key test returns. *)
Definition keys_allow {E : Env} (l : list pyval) : Prop :=
  existsb is_key_point l = true -> key_test_returns = true.

(** [create_powerpoint_deck] assembles the list [l] found under
    ['slides']: it returns the saved form of a deck with one slide per
    recognized entry of [l], in the order of [l], and saves once, after the
    last image search. *)
Definition assembles {E : Env} (topic : string) (content : pyval)
    (l : list pyval) (st : state) : Prop :=
  exists (slides : deck) (st' : state),
    create_powerpoint_deck content topic st = (Ok (Some (pptx_save slides)), st')
    /\ Forall2 renders (filter recognized l) slides
    /\ List.length slides = List.length (filter recognized l)
    /\ st_trace st' =
         (st_trace st ++ image_searches topic l ++ [SaveDeck slides])%list.

(** ** Aggregation of web context *)

(** What a backend gave to the aggregation: its snippets, or nothing when
    it was skipped or failed.  For Google these are the first three
    snippets, which is all the script reads of them. *)
Definition duckduckgo_yield {E : Env} (topic : string) (st : state)
    : option (list string) * state :=
  match duckduckgo_snippets topic st with
  | (Ok snippets, st') => (Some snippets, st')
  | (Raise _, st') => (None, st')
  end.

Definition google_yield {E : Env} (topic : string) (st : state)
    : option (list string) * state :=
  match search_keys_missing with
  | Ok false =>
      match google_snippets topic st with
      | (Ok snippets, st') =>
          match all_str (firstn 3 snippets) with
          | Ok ss => (Some ss, st')
          | Raise _ => (None, st')
          end
      | (Raise _, st') => (None, st')
      end
  | _ => (None, st)
  end.

Definition top_three (yield : option (list string)) : list string :=
  match yield with
  | Some snippets => firstn 3 snippets
  | None => []
  end.

(** The aggregation as the specification words it: the top three snippets
    of each backend that succeeded, space-joined and trimmed, and the
    sentinel when that leaves nothing. *)
Definition aggregate (yields : list (option (list string))) : string :=
  let blob := strip (join " " (flat_map top_three yields)) in
  if blob =? "" then no_context else blob.

(** A backend that failed, or succeeded with no snippet. *)
Definition gave_nothing (yield : option (list string)) : Prop :=
  yield = None \/ yield = Some [].

(** ** Sample inputs *)

(** The generation capability answers text that does not parse. *)
Definition garbled : Env :=
  scripted "key" "cse"
    (fun _ => Raise RequestException)
    (fun _ => Ok [])
    (fun _ => Ok "Sorry, I cannot help with that.")
    (fun _ => Raise ValueError)
    (fun _ => Raise OSError).

(** The generation capability answers an object that has no ['slides']. *)
Definition misdirected : Env :=
  scripted "key" "cse"
    (fun _ => Raise RequestException)
    (fun _ => Ok [])
    (fun _ => Ok "```json{}```")
    (fun _ => Ok (PDict [("deck", PList [])]))
    (fun _ => Raise OSError).

Definition entry (type title : string) (points : list string) : pyval :=
  PDict [("type", PStr type); ("title", PStr title);
         ("points", PList (map PStr points))].

(** Six entries of the four known types and one of an unknown type. *)
Definition sample_slides : list pyval :=
  [entry "title_slide" "Quantum Computing" [];
   entry "overview_slide" "Overview" ["Qubits"; "Gates"];
   entry "key_point_slide" "Superposition" ["A qubit holds both values."];
   entry "appendix_slide" "Appendix" ["Further reading."];
   PDict [("type", PStr "key_point_slide"); ("image_query", PStr "laser lab")];
   PDict [("type", PStr "conclusion_slide")];
   PDict [("title", PStr "No type at all")]].

(** An overview entry whose ['points'] is [None]. *)
Definition null_points_slides : list pyval :=
  [PDict [("type", PStr "overview_slide"); ("title", PStr "Overview");
          ("points", PNone)]].

(** DuckDuckGo answers a page with four result snippets; Google fails. *)
Definition duckduckgo_only : Env :=
  scripted "key" "cse"
    (fun url =>
       if eq_str url "https://html.duckduckgo.com/html/?q=Quantum Computing"
       then Ok {| status_code := 200; text := "<html>"; json := Raise ValueError;
                  content := [] |}
       else Raise RequestException)
    (fun _ => Ok ["Qubits superpose."; "Gates are unitary. "; "Noise decoheres.";
                  "A fourth snippet."])
    (fun _ => Raise (OtherError "unavailable"))
    (fun _ => Raise ValueError)
    (fun _ => Raise OSError).

(** ** Further notions *)

Definition is_image_search (c : call) : Prop :=
  match c with
  | ImageSearch _ => True
  | _ => False
  end.

Definition is_dict (v : pyval) : bool :=
  match v with
  | PDict _ => true
  | _ => false
  end.

(** [item.get('snippet', '')] on a dict. *)
Definition snippet_of (item : pyval) : pyval :=
  match py_get item "snippet" (PStr "") with
  | Ok v => v
  | Raise _ => PNone
  end.

(** No backtick occurs in [s]. *)
Fixpoint no_backtick (s : string) : bool :=
  match s with
  | EmptyString => true
  | String c s' => negb (Ascii.eqb "`"%char c) && no_backtick s'
  end.

(** ** More sample environments *)

Definition page (body : result pyval) (data : bytes) : response :=
  {| status_code := 200; text := ""; json := body; content := data |}.

(** The search keys are not set at all: [os.getenv] gave [None]. *)
Definition keys_unset : Env :=
  scripted_keys None None
    (fun _ => Raise RequestException)
    (fun _ => Ok [])
    (fun _ => Raise (OtherError "unavailable"))
    (fun _ => Raise ValueError)
    (fun _ => Raise OSError).

(** The keys are set, the content request (whose prompt is the topic
    here) is answered by the sample slides, and the enrichment request by
    the JSON text [null]. *)
Definition null_enrichment : Env :=
  scripted "key" "cse"
    (fun _ => Raise RequestException)
    (fun _ => Ok [])
    (fun prompt =>
       if prompt =? "Quantum Computing" then Ok "{}" else Ok "null")
    (fun answer =>
       if answer =? "null" then Ok PNone
       else Ok (PDict [("slides", PList sample_slides)]))
    (fun _ => Raise OSError).

(** A key point entry whose ['points'] is [None]. *)
Definition null_points_key_point : pyval :=
  PDict [("type", PStr "key_point_slide"); ("title", PStr "Superposition");
         ("points", PNone)].

(** A conclusion entry without ['title'] whose ['points'] is [None], and a
    key point entry that has neither key. *)
Definition untitled_null_points : pyval :=
  PDict [("type", PStr "conclusion_slide"); ("points", PNone)].

Definition bare_key_point : pyval :=
  PDict [("type", PStr "key_point_slide")].

(** The keys are still the placeholders of the template. *)
Definition unconfigured : Env :=
  scripted "YOUR_GOOGLE_SEARCH_API_KEY" "YOUR_CSE_ID"
    (fun _ => Ok (page (Ok (PDict [])) []))
    (fun _ => Ok [])
    (fun _ => Ok "{}")
    (fun _ => Ok (PDict [("slides", PList sample_slides)]))
    (fun data => Ok data).

(** Every search finds one picture, every download and conversion works,
    and the generation capability answers the sample slides. *)
Definition gallery : Env :=
  scripted "key" "cse"
    (fun url =>
       if eq_str url "https://img.example/qubit.jpg"
       then Ok (page (Raise ValueError) [x4a; x46])
       else Ok (page (Ok (PDict [("items",
                                  PList [PDict [("link",
                                                 PStr "https://img.example/qubit.jpg")]])]))
                  []))
    (fun _ => Ok [])
    (fun _ => Ok "{}")
    (fun _ => Ok (PDict [("slides", PList sample_slides)]))
    (fun data => Ok (x89 :: x50 :: data)).

(** Google answers four results; the fourth snippet is a number. *)
Definition four_results : pyval :=
  PList [PDict [("snippet", PStr "Qubits superpose.")];
         PDict [("title", PStr "No snippet here")];
         PDict [("snippet", PStr "Noise decoheres.")];
         PDict [("snippet", PInt 4)]].

Definition google_four : Env :=
  scripted "key" "cse"
    (fun _ => Ok (page (Ok (PDict [("items", four_results)])) []))
    (fun _ => Ok [])
    (fun _ => Raise (OtherError "unavailable"))
    (fun _ => Raise ValueError)
    (fun _ => Raise OSError).

(** Google answers three good results and then a bare string. *)
Definition stray_results : pyval :=
  PList [PDict [("snippet", PStr "Qubits superpose.")];
         PDict [("snippet", PStr "Gates are unitary.")];
         PDict [("snippet", PStr "Noise decoheres.")];
         PStr "advertisement"].

Definition google_stray : Env :=
  scripted "key" "cse"
    (fun _ => Ok (page (Ok (PDict [("items", stray_results)])) []))
    (fun _ => Ok [])
    (fun _ => Raise (OtherError "unavailable"))
    (fun _ => Raise ValueError)
    (fun _ => Raise OSError).

(** The generation capability answers an empty object. *)
Definition empty_answer : Env :=
  scripted "key" "cse"
    (fun _ => Raise RequestException)
    (fun _ => Ok [])
    (fun _ => Ok "{}")
    (fun _ => Ok (PDict []))
    (fun _ => Raise OSError).

(** The generation capability answers the content request (whose prompt
    is the topic here) and fails on the enrichment request. *)
Definition enrichment_down : Env :=
  scripted "key" "cse"
    (fun _ => Raise RequestException)
    (fun _ => Ok [])
    (fun prompt =>
       if prompt =? "Quantum Computing" then Ok "{}"
       else Raise (OtherError "quota"))
    (fun _ => Ok (PDict [("slides", PList sample_slides)]))
    (fun _ => Raise OSError).

(** Two good entries, then a key point entry whose title is a number. *)
Definition numbered_title_slides : list pyval :=
  [entry "title_slide" "Quantum Computing" [];
   entry "key_point_slide" "Superposition" ["A qubit holds both values."];
   PDict [("type", PStr "key_point_slide"); ("title", PInt 3)];
   entry "conclusion_slide" "Conclusion" []].

(** * Proofs *)

Section Laws.

Context {E : Env}.

Lemma bind_ok {A B} (m : M A) (k : A -> M B) s a s' :
  m s = (Ok a, s') -> bind m k s = k a s'.
Proof. intros H. unfold bind. now rewrite H. Qed.

Lemma bind_raise {A B} (m : M A) (k : A -> M B) s e s' :
  m s = (Raise e, s') -> bind m k s = (Raise e, s').
Proof. intros H. unfold bind. now rewrite H. Qed.

Lemma try_ok {A} (m : M A) h s a s' :
  m s = (Ok a, s') -> try_except m h s = (Ok a, s').
Proof. intros H. unfold try_except. now rewrite H. Qed.

Lemma try_raise {A} (m : M A) h s e s' :
  m s = (Raise e, s') -> try_except m h s = h e s'.
Proof. intros H. unfold try_except. now rewrite H. Qed.

Lemma keeps_trace_ret {A} (a : A) : keeps_trace (ret a).
Proof. now intros s. Qed.

Lemma keeps_trace_lift {A} (r : result A) : keeps_trace (lift r).
Proof. now intros s. Qed.

Lemma keeps_trace_extern {A} (op : world -> result A * world) :
  keeps_trace (extern op).
Proof. intros s. unfold extern. now destruct (op (st_world s)). Qed.

Lemma keeps_trace_bind {A B} (m : M A) (k : A -> M B) :
  keeps_trace m -> (forall a, keeps_trace (k a)) -> keeps_trace (bind m k).
Proof.
  intros Hm Hk s. unfold bind. specialize (Hm s).
  destruct (m s) as [[a | e] s1]; simpl in *.
  - now rewrite Hk.
  - exact Hm.
Qed.

Lemma keeps_trace_try {A} (m : M A) h :
  keeps_trace m -> (forall e, keeps_trace (h e)) -> keeps_trace (try_except m h).
Proof.
  intros Hm Hh s. unfold try_except. specialize (Hm s).
  destruct (m s) as [[a | e] s1]; simpl in *.
  - exact Hm.
  - now rewrite Hh.
Qed.

Lemma keeps_trace_if {A} (b : bool) (m1 m2 : M A) :
  keeps_trace m1 -> keeps_trace m2 -> keeps_trace (if b then m1 else m2).
Proof. now destruct b. Qed.

End Laws.

Ltac trace_free :=
  repeat first
    [ apply keeps_trace_ret | apply keeps_trace_lift | apply keeps_trace_extern
    | apply keeps_trace_if
    | apply keeps_trace_bind; [ | intros ? ]
    | apply keeps_trace_try; [ | intros ? ]
    | match goal with |- keeps_trace (match ?x with _ => _ end) => destruct x end ].

(** ** Strings *)

Lemma is_prefix_app (p s : string) : is_prefix p (p ++ s) = true.
Proof.
  induction p as [| c p IH]; simpl; [reflexivity |].
  now rewrite Ascii.eqb_refl, IH.
Qed.

Lemma str_contains_prefix (p s : string) :
  is_prefix p s = true -> str_contains p s = true.
Proof. intros H. destruct s; simpl; now rewrite H. Qed.

Lemma str_contains_app (a t b : string) : str_contains t (a ++ t ++ b) = true.
Proof.
  induction a as [| c a IH].
  - change (str_contains t (t ++ b) = true).
    apply str_contains_prefix, is_prefix_app.
  - simpl. rewrite IH. apply orb_true_r.
Qed.

Lemma append_assoc (a b c : string) : (a ++ b) ++ c = a ++ b ++ c.
Proof. induction a as [| x a IH]; simpl; [reflexivity | now rewrite IH]. Qed.

Lemma append_empty_r (a : string) : a ++ "" = a.
Proof. induction a as [| x a IH]; simpl; [reflexivity | now rewrite IH]. Qed.

Lemma rstrip_trailing_space (s : string) : rstrip (s ++ " ") = rstrip s.
Proof.
  induction s as [| c s IH]; [reflexivity |].
  simpl. now rewrite IH.
Qed.

Lemma strip_trailing_space (s : string) : strip (s ++ " ") = strip s.
Proof.
  unfold strip. induction s as [| c s IH]; [reflexivity |].
  simpl. destruct (is_space c); [exact IH |].
  apply (rstrip_trailing_space (String c s)).
Qed.

Lemma strip_leading_space (s : string) : strip (" " ++ s) = strip s.
Proof. reflexivity. Qed.

Lemma join_app (sep : string) (l1 l2 : list string) :
  l1 <> [] -> l2 <> [] ->
  join sep (l1 ++ l2) = join sep l1 ++ sep ++ join sep l2.
Proof.
  intros H1 H2. induction l1 as [| a l1 IH]; [contradiction |].
  destruct l1 as [| b l1].
  - simpl. destruct l2; [contradiction | reflexivity].
  - change (a ++ sep ++ join sep ((b :: l1) ++ l2)
            = (a ++ sep ++ join sep (b :: l1)) ++ sep ++ join sep l2).
    rewrite IH by discriminate. now rewrite !append_assoc.
Qed.

(** Joining the two contexts around a space and trimming is joining all
    the snippets and trimming. *)
Lemma strip_contexts (l1 l2 : list string) :
  strip (join " " l1 ++ " " ++ join " " l2) = strip (join " " (l1 ++ l2)).
Proof.
  destruct l1 as [| a l1].
  - destruct l2 as [| b l2]; [reflexivity |]. apply strip_leading_space.
  - destruct l2 as [| b l2].
    + rewrite app_nil_r.
      change (join " " []) with "". rewrite append_empty_r.
      apply strip_trailing_space.
    + now rewrite join_app by discriminate.
Qed.

Lemma all_str_length l ss : all_str l = Ok ss -> List.length ss = List.length l.
Proof.
  revert ss. induction l as [| v l IH]; simpl; intros ss H.
  - now inversion H.
  - destruct (as_str v); [| discriminate].
    destruct (all_str l) as [r |]; [| discriminate].
    inversion H; subst. simpl. now rewrite (IH r).
Qed.

Section AgentProofs.

Context {E : Env}.

(** ** OrchestratorAgent *)

(** C5. For every topic the plan has exactly seven items, typed title,
    overview, four key points, conclusion in that order; the purposes of the
    four key points name the topic under a first, second, third and fourth
    framing, the other three are constants; the plan does not depend on the
    web context. *)
Theorem plan_is_fixed_seven (topic web_context : string) :
  let items := slides_of (create_presentation_plan topic web_context) in
  List.length items = 7
  /\ map (str_field "type") items =
       ["title_slide"; "overview_slide"; "key_point_slide"; "key_point_slide";
        "key_point_slide"; "key_point_slide"; "conclusion_slide"]
  /\ map (str_field "purpose") items =
       ["A compelling title for the presentation.";
        "An overview describing key talking points.";
        "The first key point or trend about " ++ topic ++ ".";
        "The second key point or argument about " ++ topic ++ ".";
        "The third key point or trend about " ++ topic ++ ".";
        "The fourth key point or argument about " ++ topic ++ ".";
        "Give Concluding Points."]
  /\ Forall (fun item => str_contains topic (str_field "purpose" item) = true)
       (firstn 4 (skipn 2 items))
  /\ (forall other_context,
        create_presentation_plan topic other_context =
        create_presentation_plan topic web_context).
Proof.
  cbv zeta. repeat split.
  repeat constructor; apply str_contains_app.
Qed.
(** ** ResearchAgent, first facts *)

Lemma _search_duckduckgo_keeps_trace topic : keeps_trace (_search_duckduckgo topic).
Proof. unfold _search_duckduckgo, duckduckgo_snippets. trace_free. Qed.

Lemma _search_google_keeps_trace topic : keeps_trace (_search_google topic).
Proof. unfold _search_google, google_snippets. trace_free. Qed.

Lemma search_web_for_topic_keeps_trace topic :
  keeps_trace (search_web_for_topic topic).
Proof.
  unfold search_web_for_topic.
  apply keeps_trace_bind; [apply _search_duckduckgo_keeps_trace | intros d].
  apply keeps_trace_bind; [apply _search_google_keeps_trace | intros g].
  trace_free.
Qed.

(** ** VisualAssetAgent *)

(** C6. When the enrichment call fails, by a failure of the generation
    capability or by an answer that does not parse,
    [add_image_queries_to_content] returns its input content itself. *)
Theorem enrichment_failure_returns_input (content : pyval) (st : state) :
  enrichment_fails content (st_world st) ->
  exists st',
    add_image_queries_to_content content st = (Ok content, st')
    /\ st_trace st' = st_trace st.
Proof.
  unfold enrichment_fails, add_image_queries_to_content, try_except, bind,
    extern, lift, ret.
  destruct (generate_content _ (st_world st)) as [[txt | e] w]; simpl.
  - destruct (json_loads (strip_fences txt)); [intros [] |].
    intros _. eexists. split; reflexivity.
  - intros _. eexists. split; reflexivity.
Qed.

(** ** ContentStrategistAgent *)

Lemma generate_presentation_content_keeps_trace topic web_context plan :
  keeps_trace (generate_presentation_content topic web_context plan).
Proof. unfold generate_presentation_content. trace_free. Qed.

(** C7. When the answer of the generation capability to the content
    request does not parse, [generate_presentation_content] returns [None],
    and the run stops there with [exit()]: the enrichment and assembly stages
    do not run and the trace holds no file write. *)
Theorem unparsable_content_halts_pipeline
    (topic : string) (st st1 : state) (web_context : string) :
  search_web_for_topic topic st = (Ok web_context, st1) ->
  content_unparsable topic web_context (st_world st1) ->
  exists st2,
    generate_presentation_content topic web_context
      (create_presentation_plan topic web_context) st1 = (Ok PNone, st2)
    /\ main topic st = (Ok ExitNoContent, st2)
    /\ st_trace st2 = st_trace st.
Proof.
  intros Hsearch Hbad.
  assert (Hgen : exists st2,
             generate_presentation_content topic web_context
               (create_presentation_plan topic web_context) st1 = (Ok PNone, st2)).
  { revert Hbad.
    unfold content_unparsable, generate_presentation_content, try_except,
      bind, extern, lift, ret. cbv zeta.
    destruct (generate_content _ (st_world st1)) as [[txt | e] w]; simpl.
    - destruct (json_loads (strip_fences txt)); [intros [] |].
      intros _. eexists. reflexivity.
    - intros []. }
  destruct Hgen as [st2 Hgen]. exists st2. split; [exact Hgen |]. split.
  - unfold main. rewrite (bind_ok _ _ _ _ _ Hsearch). cbv zeta.
    change (truthy (create_presentation_plan topic web_context)) with true.
    cbn [negb]. rewrite (bind_ok _ _ _ _ _ Hgen). reflexivity.
  - pose proof (generate_presentation_content_keeps_trace topic web_context
                  (create_presentation_plan topic web_context) st1) as H2.
    pose proof (search_web_for_topic_keeps_trace topic st) as H1.
    rewrite Hgen in H2. rewrite Hsearch in H1. simpl in *. congruence.
Qed.

(** ** PowerPointAssemblyAgent *)

Lemma fetch_image_keeps_trace query : keeps_trace (fetch_image query).
Proof. unfold fetch_image. trace_free. Qed.

(** [_get_image_for_slide] records its query before anything else, so the
    record is there also when the key test raises. *)
Lemma _get_image_for_slide_logs query st :
  st_trace (snd (_get_image_for_slide query st))
  = (st_trace st ++ [ImageSearch query])%list.
Proof.
  unfold _get_image_for_slide, bind, log, lift.
  destruct search_keys_missing as [[|] | e]; try reflexivity.
  unfold try_except.
  pose proof (fetch_image_keeps_trace query
    {| st_world := st_world st;
       st_trace := (st_trace st ++ [ImageSearch query])%list |}) as Ht.
  destruct (fetch_image query _) as [[r | e] s1]; exact Ht.
Qed.

(** Once the key test returns, [_get_image_for_slide] returns under every
    answer of the outside. *)
Lemma _get_image_for_slide_returns query st :
  key_test_returns = true ->
  exists r st',
    _get_image_for_slide query st = (Ok r, st')
    /\ st_trace st' = (st_trace st ++ [ImageSearch query])%list.
Proof.
  intros Hkeys. pose proof (_get_image_for_slide_logs query st) as Ht.
  revert Hkeys Ht.
  unfold key_test_returns, _get_image_for_slide, bind, log, lift.
  destruct search_keys_missing as [[|] | e]; [| | discriminate]; intros _.
  - intros Ht. eexists _, _. split; [reflexivity | exact Ht].
  - unfold try_except.
    destruct (fetch_image query _) as [[r | e] s1]; intros Ht;
      eexists _, _; (split; [reflexivity | exact Ht]).
Qed.

Lemma image_unavailable_key_test query w :
  image_unavailable query w -> key_test_returns = true.
Proof.
  unfold key_test_returns. intros [H | [H _]]; now rewrite H.
Qed.

Lemma _get_image_for_slide_unavailable query st :
  image_unavailable query (st_world st) ->
  exists st',
    _get_image_for_slide query st = (Ok None, st')
    /\ st_trace st' = (st_trace st ++ [ImageSearch query])%list.
Proof.
  intros Hno.
  destruct (_get_image_for_slide_returns query st
              (image_unavailable_key_test _ _ Hno))
    as (r & st' & Hrun & Htr).
  exists st'. split; [| exact Htr]. rewrite Hrun. f_equal. f_equal.
  revert Hrun. unfold _get_image_for_slide, bind, log, lift, try_except, ret.
  destruct Hno as [Hkeys | [Hkeys Hfetch]]; rewrite Hkeys.
  - congruence.
  - specialize (Hfetch (st_trace st ++ [ImageSearch query])%list).
    destruct (fetch_image query _) as [[[png |] | e] s1];
      [contradiction | congruence | congruence].
Qed.

Lemma for_each_add_paragraph size items :
  forallb is_str items = true ->
  exists ps,
    for_each (add_paragraph size) items = Ok ps
    /\ all_str items = Ok (map p_text ps)
    /\ Forall (fun p => p_font_size p = size) ps.
Proof.
  induction items as [| v items IH]; simpl; intros H.
  - exists []. repeat split. constructor.
  - apply andb_prop in H. destruct H as [Hv Hrest].
    destruct v; try discriminate.
    destruct (IH Hrest) as (ps & Hps & Hall & Hsize).
    change (add_paragraph size (PStr s)) with
      (Ok {| p_text := s; p_level := 0; p_space_after := 8;
             p_font_size := size |}).
    rewrite Hps, Hall.
    eexists. repeat split. constructor; [reflexivity | exact Hsize].
Qed.

Lemma fill_text_frame_text size points :
  text_items points = true ->
  exists ps,
    fill_text_frame size points =
      Ok {| tf_word_wrap := true; tf_auto_size := TEXT_TO_FIT_SHAPE;
            tf_paragraphs := ps |}
    /\ map p_text ps = texts_of points
    /\ Forall (fun p => p_font_size p = size) ps.
Proof.
  unfold text_items, fill_text_frame, texts_of.
  destruct (py_iter points) as [items | e]; [| discriminate].
  intros H. destruct (for_each_add_paragraph size items H) as (ps & Hps & Hall & Hsz).
  rewrite Hps, Hall. exists ps. repeat split. exact Hsz.
Qed.

Lemma content_slide_text lay title points size pic :
  is_str title = true ->
  text_items points = true ->
  exists s,
    content_slide lay title points size pic = Ok s
    /\ PStr (title_text s) = title
    /\ layout s = lay /\ image s = pic
    /\ map p_text (bullets s) = texts_of points
    /\ Forall (fun p => p_font_size p = size) (bullets s).
Proof.
  intros Ht Hp. destruct title; try discriminate.
  destruct (fill_text_frame_text size points Hp) as (ps & Hfill & Htexts & Hsz).
  unfold content_slide. simpl. rewrite Hfill.
  eexists. repeat split; assumption.
Qed.

(** The loop body on a dict, with the three [get] calls resolved. *)
Lemma render_slide_dict topic prs d st :
  let e := PDict d in
  render_slide topic prs e st =
  (if is_title e then
     t <- lift (as_str (entry_title e)) ;;
     ret (add_slide prs
            {| layout := 0; title_text := t;
               subtitle := Some ("A Presentation on " ++ topic);
               body := None; image := None |})
   else if is_summary e then
     slide <- lift (content_slide 1 (entry_title e) (entry_points e) 15 None) ;;
     ret (add_slide prs slide)
   else if is_key_point e then
     image_stream <- _get_image_for_slide (entry_query topic e) ;;
     match image_stream with
     | Some png =>
         slide <- lift (content_slide 3 (entry_title e) (entry_points e) 18
                          (Some {| pic_png := png; pic_region := 2 |})) ;;
         ret (add_slide prs slide)
     | None =>
         slide <- lift (content_slide 1 (entry_title e) (entry_points e) 18 None) ;;
         ret (add_slide prs slide)
     end
   else ret prs) st.
Proof.
  cbv zeta.
  unfold render_slide, is_title, is_summary, is_key_point, entry_type,
    entry_title, entry_points, entry_query, field, py_get.
  destruct (dict_lookup "type" d), (dict_lookup "title" d),
    (dict_lookup "points" d), (dict_lookup "image_query" d); reflexivity.
Qed.

(** On a well-formed entry the loop body returns; it adds one slide that
    renders the entry when the type is recognized and none otherwise, and
    the only call it records is the image search of a key point entry. *)
Lemma render_slide_well_formed topic prs e st :
  well_formed e = true ->
  keys_allow [e] ->
  exists new st',
    render_slide topic prs e st = (Ok (prs ++ new)%list, st')
    /\ Forall2 renders (if recognized e then [e] else []) new
    /\ st_trace st' = (st_trace st ++ image_searches topic [e])%list.
Proof.
  destruct e as [| | | | | | d]; try discriminate.
  intros Hwf Hkeys. rewrite render_slide_dict. cbv zeta.
  unfold well_formed in Hwf. unfold recognized, image_searches, filter.
  destruct (is_title (PDict d)) eqn:Htitle.
  - (* title slide *)
    destruct (entry_title (PDict d)) eqn:Ht; try discriminate.
    assert (Hkey : is_key_point (PDict d) = false).
    { revert Htitle. unfold is_title, is_key_point.
      destruct (entry_type (PDict d)); try reflexivity. simpl.
      destruct (String.eqb_spec s0 "title_slide"); [subst; reflexivity | discriminate]. }
    rewrite Hkey. simpl.
    eexists [_], st. unfold bind, lift, ret, add_slide. simpl.
    split; [reflexivity |]. split; [| now rewrite app_nil_r].
    constructor; [| constructor].
    unfold renders. rewrite Htitle, Ht. simpl. auto.
  - destruct (is_summary (PDict d)) eqn:Hsum.
    + (* overview or conclusion *)
      simpl in Hwf. apply andb_prop in Hwf. destruct Hwf as [Ht Hp].
      destruct (content_slide_text 1 _ _ 15 None Ht Hp)
        as (s & Hs & Hst & Hlay & Himg & Htexts & Hsz).
      assert (Hkey : is_key_point (PDict d) = false).
      { revert Hsum. unfold is_summary, is_key_point.
        destruct (entry_type (PDict d)); try reflexivity. simpl.
        destruct (String.eqb_spec s0 "key_point_slide"); [subst; discriminate | reflexivity]. }
      rewrite Hkey. simpl.
      exists [s], st. unfold bind, lift, ret, add_slide. rewrite Hs.
      split; [reflexivity |]. split; [| now rewrite app_nil_r].
      constructor; [| constructor].
      unfold renders. rewrite Htitle, Hkey. auto.
    + destruct (is_key_point (PDict d)) eqn:Hkey.
      * (* key point *)
        simpl in Hwf. apply andb_prop in Hwf. destruct Hwf as [Ht Hp].
        assert (Hret : key_test_returns = true).
        { apply Hkeys. simpl. now rewrite Hkey. }
        destruct (_get_image_for_slide_returns (entry_query topic (PDict d)) st
                    Hret)
          as (r & st' & Hrun & Htr).
        rewrite (bind_ok _ _ _ _ _ Hrun).
        destruct r as [png |].
        -- destruct (content_slide_text 3 _ _ 18
                       (Some {| pic_png := png; pic_region := 2 |}) Ht Hp)
             as (s & Hs & Hst & Hlay & Himg & Htexts & Hsz).
           exists [s], st'. unfold bind, lift, ret, add_slide. rewrite Hs.
           split; [reflexivity |]. split; [| exact Htr].
           constructor; [| constructor].
           unfold renders. rewrite Htitle, Hkey. repeat split; auto.
           left. split; [assumption | rewrite Himg; discriminate].
        -- destruct (content_slide_text 1 _ _ 18 None Ht Hp)
             as (s & Hs & Hst & Hlay & Himg & Htexts & Hsz).
           exists [s], st'. unfold bind, lift, ret, add_slide. rewrite Hs.
           split; [reflexivity |]. split; [| exact Htr].
           constructor; [| constructor].
           unfold renders. rewrite Htitle, Hkey. repeat split; auto.
      * (* any other type: skipped *)
        exists [], st. simpl. unfold ret. rewrite !app_nil_r.
        repeat split. constructor.
Qed.

Lemma image_searches_cons topic e l :
  image_searches topic (e :: l) =
  (image_searches topic [e] ++ image_searches topic l)%list.
Proof.
  unfold image_searches. simpl. destruct (is_key_point e); reflexivity.
Qed.

Lemma keys_allow_cons e l :
  keys_allow (e :: l) -> keys_allow [e] /\ keys_allow l.
Proof.
  unfold keys_allow. simpl. intros H. split; intros Hk; apply H.
  - rewrite orb_false_r in Hk. now rewrite Hk.
  - rewrite Hk. apply orb_true_r.
Qed.

Lemma keys_allow_app l1 l2 :
  keys_allow (l1 ++ l2)%list -> keys_allow l1 /\ keys_allow l2.
Proof.
  unfold keys_allow. rewrite existsb_app. intros H.
  split; intros Hk; apply H; rewrite Hk; [reflexivity | apply orb_true_r].
Qed.

(** The loop over well-formed entries. *)
Lemma assembly_loop topic l :
  forall prs st,
    forallb well_formed l = true ->
    keys_allow l ->
    exists new st',
      for_loop (render_slide topic) l prs st = (Ok (prs ++ new)%list, st')
      /\ Forall2 renders (filter recognized l) new
      /\ st_trace st' = (st_trace st ++ image_searches topic l)%list.
Proof.
  induction l as [| e l IH]; intros prs st Hwf Hkeys.
  - exists [], st. simpl. unfold ret. rewrite !app_nil_r.
    repeat split. constructor.
  - simpl in Hwf. apply andb_prop in Hwf. destruct Hwf as [He Hl].
    destruct (keys_allow_cons _ _ Hkeys) as [Hke Hkl].
    destruct (render_slide_well_formed topic prs e st He Hke)
      as (new1 & st1 & Hrun1 & Hren1 & Htr1).
    destruct (IH (prs ++ new1)%list st1 Hl Hkl)
      as (new2 & st2 & Hrun2 & Hren2 & Htr2).
    exists (new1 ++ new2)%list, st2.
    split; [| split].
    + simpl. rewrite (bind_ok _ _ _ _ _ Hrun1), Hrun2.
      now rewrite <- app_assoc.
    + simpl. destruct (recognized e).
      * inversion Hren1 as [| ? s ? rest ? Hrest]; subst.
        inversion Hrest; subst. simpl. now constructor.
      * inversion Hren1; subst. exact Hren2.
    + rewrite Htr2, Htr1, (image_searches_cons topic e l).
      now rewrite <- app_assoc.
Qed.

Lemma create_powerpoint_deck_assembles topic d l st :
  dict_lookup "slides" d = Some (PList l) ->
  forallb well_formed l = true ->
  keys_allow l ->
  assembles topic (PDict d) l st.
Proof.
  intros Hslides Hwf Hkeys.
  destruct (assembly_loop topic l [] st Hwf Hkeys)
    as (slides & st' & Hloop & Hren & Htr).
  exists slides.
  exists {| st_world := st_world st';
            st_trace := (st_trace st' ++ [SaveDeck slides])%list |}.
  split; [| split; [exact Hren | split]].
  - unfold create_powerpoint_deck, bind, lift, ret, log, py_in, py_getitem.
    rewrite Hslides. simpl. simpl in Hloop. rewrite Hloop. reflexivity.
  - symmetry. eapply Forall2_length. exact Hren.
  - simpl. rewrite Htr. now rewrite <- app_assoc.
Qed.

(** C1. For every content dict whose ['slides'] entry is a list of
    well-formed entries, with the key test returning if the list holds a
    key point entry, [create_powerpoint_deck] returns the saved deck; the
    deck holds exactly one rendered slide per entry of a recognized type,
    in input order; entries of any other or of no type add no slide and
    raise nothing; the deck is serialized once, after the loop. *)
Theorem well_formed_slides_are_assembled
    (topic : string) (d : dict) (l : list pyval) (st : state) :
  dict_lookup "slides" d = Some (PList l) ->
  forallb well_formed l = true ->
  keys_allow l ->
  assembles topic (PDict d) l st.
Proof. apply create_powerpoint_deck_assembles. Qed.

Lemma key_point_is_no_other e :
  is_key_point e = true -> is_title e = false /\ is_summary e = false.
Proof.
  unfold is_key_point, is_title, is_summary.
  destruct (entry_type e) as [| | | | s | |]; try discriminate. simpl.
  destruct (String.eqb_spec s "key_point_slide"); [subst | discriminate].
  intros _. split; reflexivity.
Qed.

(** A key point entry sends exactly one query to the image search, the
    value of [get('image_query', topic)], whatever happens afterwards. *)
Lemma render_key_point_query topic prs d st :
  is_key_point (PDict d) = true ->
  st_trace (snd (render_slide topic prs (PDict d) st)) =
  (st_trace st ++ [ImageSearch (entry_query topic (PDict d))])%list.
Proof.
  intros Hkey. destruct (key_point_is_no_other _ Hkey) as [Ht Hs].
  rewrite render_slide_dict. cbv zeta. rewrite Ht, Hs, Hkey.
  pose proof (_get_image_for_slide_logs (entry_query topic (PDict d)) st)
    as Htr.
  unfold bind at 1.
  destruct (_get_image_for_slide (entry_query topic (PDict d)) st)
    as [[r | e] st']; simpl in Htr; [| exact Htr].
  destruct r; unfold bind, lift, ret;
    destruct (content_slide _ _ _ _ _); simpl; exact Htr.
Qed.

(** C4. A key point entry without the key ['image_query'] sends the topic
    to the image search. *)
Theorem absent_image_query_uses_topic
    (topic : string) (prs : deck) (d : dict) (st : state) :
  is_key_point (PDict d) = true ->
  dict_lookup "image_query" d = None ->
  st_trace (snd (render_slide topic prs (PDict d) st)) =
  (st_trace st ++ [ImageSearch (PStr topic)])%list.
Proof.
  intros Hkey Habsent. rewrite (render_key_point_query _ _ _ _ Hkey).
  unfold entry_query, py_get. now rewrite Habsent.
Qed.

(** C10. A key point entry that has the key ['image_query'] sends the
    value found there to the image search as it is, also when that value is
    the empty string or [None]; the topic stands in only for an absent
    key. *)
Theorem present_image_query_is_passed_verbatim
    (topic : string) (prs : deck) (d : dict) (v : pyval) (st : state) :
  is_key_point (PDict d) = true ->
  dict_lookup "image_query" d = Some v ->
  st_trace (snd (render_slide topic prs (PDict d) st)) =
  (st_trace st ++ [ImageSearch v])%list.
Proof.
  intros Hkey Hpresent. rewrite (render_key_point_query _ _ _ _ Hkey).
  unfold entry_query, py_get. now rewrite Hpresent.
Qed.

Lemma add_image_queries_to_content_keeps_trace content :
  keeps_trace (add_image_queries_to_content content).
Proof. unfold add_image_queries_to_content. trace_free. Qed.

Lemma create_powerpoint_deck_rejects topic content st :
  lacks_slides_list content ->
  create_powerpoint_deck content topic st = (Ok None, st).
Proof.
  unfold create_powerpoint_deck, bind, lift, ret.
  intros [Habsent | (v & Hv & Hnot)].
  - now rewrite Habsent.
  - destruct content as [| | | | | | d]; try discriminate.
    unfold py_getitem in *. unfold py_in.
    destruct (dict_lookup "slides" d) as [x |]; [| discriminate].
    inversion Hv; subst. simpl. now rewrite Hnot.
Qed.

(** A deck comes back only from a dict with a list under ['slides']. *)
Lemma deck_only_from_slides_list topic content st stream st' :
  create_powerpoint_deck content topic st = (Ok (Some stream), st') ->
  exists d l, content = PDict d /\ dict_lookup "slides" d = Some (PList l).
Proof.
  unfold create_powerpoint_deck, bind, lift, ret.
  destruct content as [| | | | s | l | d]; simpl; try discriminate.
  - destruct (str_contains "slides" s); discriminate.
  - destruct (existsb _ l); discriminate.
  - destruct (dict_lookup "slides" d) as [v |] eqn:Hv; simpl; [| discriminate].
    destruct v as [| | | | | l |]; simpl; try discriminate.
    intros _. exists d, l. split; [reflexivity | exact Hv].
Qed.

(** X23. When the guard's own test finds no list under ['slides'] (the
    membership test is false, or the subscript gives something that is not
    a list), [create_powerpoint_deck] returns [None] and leaves no deck
    behind (nothing is saved, the state is untouched), and the main block
    then ends without opening a file for writing. *)
Theorem no_slides_list_no_artifact (topic : string) (content : pyval) :
  lacks_slides_list content ->
  (forall st, create_powerpoint_deck content topic st = (Ok None, st))
  /\ (forall st, save_presentation None topic st = (Ok NotAssembled, st))
  /\ (forall st st1 st2 st3 web_context initial_content,
        search_web_for_topic topic st = (Ok web_context, st1) ->
        generate_presentation_content topic web_context
          (create_presentation_plan topic web_context) st1
          = (Ok initial_content, st2) ->
        truthy initial_content = true ->
        add_image_queries_to_content initial_content st2 = (Ok content, st3) ->
        main topic st = (Ok NotAssembled, st3)
        /\ st_trace st3 = st_trace st).
Proof.
  intros Hbad. split; [| split].
  - intros st. now apply create_powerpoint_deck_rejects.
  - reflexivity.
  - intros st st1 st2 st3 ctx ic Hsearch Hgen Htruthy Henrich. split.
    + unfold main. rewrite (bind_ok _ _ _ _ _ Hsearch). cbv zeta.
      change (truthy (create_presentation_plan topic ctx)) with true.
      cbn [negb]. rewrite (bind_ok _ _ _ _ _ Hgen). rewrite Htruthy.
      cbn [negb]. rewrite (bind_ok _ _ _ _ _ Henrich).
      rewrite (bind_ok _ _ _ _ _
                 (create_powerpoint_deck_rejects topic content st3 Hbad)).
      reflexivity.
    + pose proof (search_web_for_topic_keeps_trace topic st) as H1.
      pose proof (generate_presentation_content_keeps_trace topic ctx
                    (create_presentation_plan topic ctx) st1) as H2.
      pose proof (add_image_queries_to_content_keeps_trace ic st2) as H3.
      rewrite Hsearch in H1. rewrite Hgen in H2. rewrite Henrich in H3.
      simpl in *. congruence.
Qed.

(** C2. The guard does not cover every content without a list under
    ['slides']: when the membership test itself raises, as it does on
    [None], a boolean or a number, the [TypeError] escapes
    [create_powerpoint_deck] instead of [None] being returned, and the main
    block ends by that exception, not in its "No file was saved" branch;
    nothing is saved or written on the way. *)
Theorem guard_raises_where_membership_is_undefined
    (topic : string) (content : pyval) :
  py_in "slides" content = Raise TypeError ->
  (forall st, create_powerpoint_deck content topic st = (Raise TypeError, st))
  /\ (forall st st1 st2 st3 web_context initial_content,
        search_web_for_topic topic st = (Ok web_context, st1) ->
        generate_presentation_content topic web_context
          (create_presentation_plan topic web_context) st1
          = (Ok initial_content, st2) ->
        truthy initial_content = true ->
        add_image_queries_to_content initial_content st2 = (Ok content, st3) ->
        main topic st = (Raise TypeError, st3)
        /\ st_trace st3 = st_trace st).
Proof.
  intros Hin.
  assert (Hdeck : forall st,
            create_powerpoint_deck content topic st = (Raise TypeError, st)).
  { intros st. unfold create_powerpoint_deck, bind, lift. now rewrite Hin. }
  split; [exact Hdeck |].
  intros st st1 st2 st3 ctx ic Hsearch Hgen Htruthy Henrich. split.
  - unfold main. rewrite (bind_ok _ _ _ _ _ Hsearch). cbv zeta.
    change (truthy (create_presentation_plan topic ctx)) with true.
    cbn [negb]. rewrite (bind_ok _ _ _ _ _ Hgen). rewrite Htruthy.
    cbn [negb]. rewrite (bind_ok _ _ _ _ _ Henrich).
    now rewrite (bind_raise _ _ _ _ _ (Hdeck st3)).
  - pose proof (search_web_for_topic_keeps_trace topic st) as H1.
    pose proof (generate_presentation_content_keeps_trace topic ctx
                  (create_presentation_plan topic ctx) st1) as H2.
    pose proof (add_image_queries_to_content_keeps_trace ic st2) as H3.
    rewrite Hsearch in H1. rewrite Hgen in H2. rewrite Henrich in H3.
    simpl in *. congruence.
Qed.

Lemma render_slide_recognized topic prs e st :
  well_formed e = true ->
  keys_allow [e] ->
  recognized e = true ->
  exists s st',
    render_slide topic prs e st = (Ok (add_slide prs s), st') /\ renders e s.
Proof.
  intros Hwf Hkeys Hrec.
  destruct (render_slide_well_formed topic prs e st Hwf Hkeys)
    as (new & st' & Hrun & Hren & _).
  rewrite Hrec in Hren.
  inversion Hren as [| ? s ? rest Hs Hrest]; subst. inversion Hrest; subst.
  exists s, st'. split; assumption.
Qed.

Lemma entry_title_default d :
  dict_lookup "title" d = None -> entry_title (PDict d) = PStr "Untitled Slide".
Proof. intros H. unfold entry_title, py_get. now rewrite H. Qed.

Lemma entry_points_default d :
  dict_lookup "points" d = None -> entry_points (PDict d) = PList [].
Proof. intros H. unfold entry_points, py_get. now rewrite H. Qed.

Lemma well_formed_dict d :
  is_str (entry_title (PDict d)) = true ->
  is_title (PDict d) = true \/ text_items (entry_points (PDict d)) = true ->
  well_formed (PDict d) = true.
Proof.
  intros Ht Hp. unfold well_formed. rewrite Ht.
  destruct (is_title (PDict d)); [reflexivity |].
  destruct Hp as [Hp | Hp]; [discriminate |]. rewrite Hp.
  now destruct (is_summary (PDict d) || is_key_point (PDict d)).
Qed.

(** C9. An entry of a recognized type may lack ['title'] or ['points'],
    the key test returning if it is a key point entry: without ['title']
    and with points that are text the slide is titled "Untitled Slide",
    without ['points'] and with a [str] title it has no bullet paragraph,
    and an entry that lacks both does not stop the assembly of the list it
    stands in. *)
Theorem missing_title_or_points_still_renders
    (topic : string) (prs : deck) (d : dict) (st : state) :
  recognized (PDict d) = true ->
  keys_allow [PDict d] ->
  (dict_lookup "title" d = None ->
   is_title (PDict d) = true \/ text_items (entry_points (PDict d)) = true ->
   exists s st',
     render_slide topic prs (PDict d) st = (Ok (add_slide prs s), st')
     /\ title_text s = "Untitled Slide")
  /\ (dict_lookup "points" d = None ->
      is_str (entry_title (PDict d)) = true ->
      exists s st',
        render_slide topic prs (PDict d) st = (Ok (add_slide prs s), st')
        /\ bullets s = [])
  /\ (dict_lookup "title" d = None ->
      dict_lookup "points" d = None ->
      forall content before after st0,
        dict_lookup "slides" content = Some (PList (before ++ PDict d :: after)%list) ->
        forallb well_formed before = true ->
        forallb well_formed after = true ->
        keys_allow (before ++ after)%list ->
        assembles topic (PDict content) (before ++ PDict d :: after)%list st0).
Proof.
  intros Hrec Hkeys. split; [| split].
  - intros Hno Hpoints.
    assert (Ht : entry_title (PDict d) = PStr "Untitled Slide")
      by now apply entry_title_default.
    assert (Hwf : well_formed (PDict d) = true).
    { apply well_formed_dict; [now rewrite Ht | exact Hpoints]. }
    destruct (render_slide_recognized topic prs _ st Hwf Hkeys Hrec)
      as (s & st' & Hrun & Htitle & _).
    exists s, st'. split; [exact Hrun |].
    rewrite Ht in Htitle. now inversion Htitle.
  - intros Hno Htitle.
    assert (Hp : entry_points (PDict d) = PList [])
      by now apply entry_points_default.
    assert (Hwf : well_formed (PDict d) = true).
    { apply well_formed_dict; [exact Htitle | right; now rewrite Hp]. }
    destruct (render_slide_recognized topic prs _ st Hwf Hkeys Hrec)
      as (s & st' & Hrun & _ & Hshape).
    exists s, st'. split; [exact Hrun |].
    destruct (is_title (PDict d)).
    + now destruct Hshape as (_ & _ & Hb).
    + destruct Hshape as [Htexts _]. rewrite Hp in Htexts.
      now apply map_eq_nil in Htexts.
  - intros Hnot Hnop content before after st0 Hslides Hb Ha Hrest.
    apply create_powerpoint_deck_assembles; [exact Hslides | |].
    + rewrite forallb_app. rewrite Hb. simpl. rewrite Ha.
      rewrite andb_true_r. apply well_formed_dict.
      * now rewrite entry_title_default.
      * right. now rewrite entry_points_default.
    + unfold keys_allow in *. rewrite existsb_app in *. simpl in *.
      rewrite orb_false_r in Hkeys.
      destruct (existsb is_key_point before); [now apply Hrest |].
      destruct (is_key_point (PDict d)); [now apply Hkeys |].
      simpl. intros Hk. apply Hrest. now rewrite Hk.
Qed.

(** C3. When no picture can be had for a key point entry with a [str]
    title and text points, at whatever step after the key test the
    acquisition fails, the entry is rendered on the title-and-content
    layout without a picture and with 18 pt bullets, and the loop goes on
    with the next entry; with the key test returning,
    [_get_image_for_slide] itself returns under every answer of the
    outside, so no failure of the search, the download or the conversion
    raises out of the assembly. *)
Theorem image_failure_falls_back_to_single_content
    (topic : string) (prs : deck) (d : dict) (st : state) :
  is_key_point (PDict d) = true ->
  is_str (entry_title (PDict d)) = true ->
  text_items (entry_points (PDict d)) = true ->
  image_unavailable (entry_query topic (PDict d)) (st_world st) ->
  (exists s st',
     render_slide topic prs (PDict d) st = (Ok (add_slide prs s), st')
     /\ layout s = 1 /\ image s = None
     /\ Forall (fun p => p_font_size p = 18) (bullets s)
     /\ map p_text (bullets s) = texts_of (entry_points (PDict d))
     /\ PStr (title_text s) = entry_title (PDict d)
     /\ forall rest,
          for_loop (render_slide topic) (PDict d :: rest) prs st =
          for_loop (render_slide topic) rest (add_slide prs s) st')
  /\ (forall query, never_raises (_get_image_for_slide query)).
Proof.
  intros Hkey Ht Hp Hno. split.
  - destruct (key_point_is_no_other _ Hkey) as [Hnt Hns].
    destruct (_get_image_for_slide_unavailable _ st Hno) as (st' & Hrun & _).
    destruct (content_slide_text 1 _ _ 18 None Ht Hp)
      as (s & Hs & Hst & Hlay & Himg & Htexts & Hsz).
    assert (Hrender : render_slide topic prs (PDict d) st = (Ok (add_slide prs s), st')).
    { rewrite render_slide_dict. cbv zeta. rewrite Hnt, Hns, Hkey.
      rewrite (bind_ok _ _ _ _ _ Hrun). unfold bind, lift, ret. now rewrite Hs. }
    exists s, st'. repeat split; try assumption.
    intros rest. simpl. now rewrite (bind_ok _ _ _ _ _ Hrender).
  - intros query s.
    destruct (_get_image_for_slide_returns query s
                (image_unavailable_key_test _ _ Hno))
      as (r & s' & Hrun & _).
    now exists r, s'.
Qed.

(** ** ResearchAgent: aggregation *)

Lemma _search_duckduckgo_yield topic st :
  _search_duckduckgo topic st =
  (Ok (join " " (top_three (fst (duckduckgo_yield topic st)))),
   snd (duckduckgo_yield topic st)).
Proof.
  unfold _search_duckduckgo, duckduckgo_yield, try_except, bind, ret.
  destruct (duckduckgo_snippets topic st) as [[snippets | e] st']; simpl.
  - now destruct snippets.
  - reflexivity.
Qed.

Lemma _search_google_yield topic st :
  key_test_returns = true ->
  _search_google topic st =
  (Ok (join " " (top_three (fst (google_yield topic st)))),
   snd (google_yield topic st)).
Proof.
  unfold key_test_returns, _search_google, google_yield, bind at 1, lift.
  destruct search_keys_missing as [[|] | e]; [reflexivity | | discriminate].
  intros _.
  unfold try_except, bind, ret, lift, py_join.
  destruct (google_snippets topic st) as [[snippets | e] st'];
    [| reflexivity].
  destruct snippets as [| v snippets]; [reflexivity |].
  remember (firstn 3 (v :: snippets)) as top eqn:Htop.
  destruct (all_str top) as [ss | e] eqn:Hss; [| reflexivity].
  cbn [fst snd top_three]. rewrite firstn_all2; [reflexivity |].
  rewrite (all_str_length _ _ Hss), Htop. apply firstn_le_length.
Qed.

(** The key test raises only when a key it looks at is unset, and then
    with a [TypeError]. *)
Lemma key_test_raises :
  key_test_returns = false -> search_keys_missing = Raise TypeError.
Proof.
  unfold key_test_returns, search_keys_missing, key_contains.
  destruct GOOGLE_SEARCH_API_KEY as [k1 |]; [| reflexivity].
  destruct (str_contains _ k1); [discriminate |].
  destruct CUSTOM_SEARCH_ENGINE_ID as [k2 |]; [discriminate | reflexivity].
Qed.

(** C8. With a search key unset, so that the key test of [_search_google]
    raises, the aggregation is aborted: the [TypeError] escapes
    [search_web_for_topic] after DuckDuckGo was asked, whatever DuckDuckGo
    gave, instead of Google being skipped. *)
Theorem unset_search_key_aborts_aggregation (topic : string) (st : state) :
  key_test_returns = false ->
  search_web_for_topic topic st
  = (Raise TypeError, snd (_search_duckduckgo topic st)).
Proof.
  intros Hkeys. apply key_test_raises in Hkeys.
  unfold search_web_for_topic.
  rewrite (bind_ok _ _ _ _ _ (_search_duckduckgo_yield topic st)).
  rewrite (_search_duckduckgo_yield topic st). cbn [snd].
  unfold bind at 1, _search_google, bind, lift. now rewrite Hkeys.
Qed.

(** X24. With the key test returning, [search_web_for_topic] returns,
    whatever the backends do; DuckDuckGo is asked first and Google after
    it, also when DuckDuckGo failed; the result is the trimmed,
    space-joined concatenation of the top three snippets of each backend
    that succeeded, or the sentinel when that is empty, as it is when every
    backend failed or gave no snippet. *)
Theorem search_web_for_topic_aggregates (topic : string) (st : state) :
  key_test_returns = true ->
  let ddg := duckduckgo_yield topic st in
  let google := google_yield topic (snd ddg) in
  let snippets := (top_three (fst ddg) ++ top_three (fst google))%list in
  search_web_for_topic topic st = (Ok (aggregate [fst ddg; fst google]), snd google)
  /\ (strip (join " " snippets) <> "" ->
      aggregate [fst ddg; fst google] = strip (join " " snippets))
  /\ (strip (join " " snippets) = "" ->
      aggregate [fst ddg; fst google] = "No specific web context found.")
  /\ (gave_nothing (fst ddg) -> gave_nothing (fst google) ->
      aggregate [fst ddg; fst google] = "No specific web context found.").
Proof.
  intros Hkeys. cbv zeta.
  set (ddg := duckduckgo_yield topic st).
  set (google := google_yield topic (snd ddg)).
  assert (Hflat : flat_map top_three [fst ddg; fst google] =
                  (top_three (fst ddg) ++ top_three (fst google))%list).
  { simpl. now rewrite app_nil_r. }
  split; [| split; [| split]].
  - unfold search_web_for_topic.
    rewrite (bind_ok _ _ _ _ _ (_search_duckduckgo_yield topic st)).
    fold ddg.
    rewrite (bind_ok _ _ _ _ _ (_search_google_yield topic (snd ddg) Hkeys)).
    fold google. cbv zeta. rewrite strip_contexts.
    unfold aggregate. rewrite Hflat.
    now destruct (strip _ =? "").
  - intros Hne. unfold aggregate. rewrite Hflat.
    destruct (String.eqb_spec (strip (join " " (top_three (fst ddg) ++ top_three (fst google)))) "");
      [contradiction | reflexivity].
  - intros He. unfold aggregate. rewrite Hflat, He. reflexivity.
  - intros [H1 | H1] [H2 | H2]; unfold aggregate; rewrite Hflat, H1, H2;
      reflexivity.
Qed.

End AgentProofs.

(** * Further properties of the agents *)

Section Coverage.

Context {E : Env}.

(** ** The loop body on any entry *)

Lemma title_is_no_other e :
  is_title e = true -> is_summary e = false /\ is_key_point e = false.
Proof.
  unfold is_key_point, is_title, is_summary.
  destruct (entry_type e) as [| | | | s | |]; try discriminate. simpl.
  destruct (String.eqb_spec s "title_slide"); [subst | discriminate].
  intros _. split; reflexivity.
Qed.

Lemma summary_is_no_key_point e :
  is_summary e = true -> is_key_point e = false.
Proof.
  unfold is_key_point, is_summary.
  destruct (entry_type e) as [| | | | s | |]; try discriminate. simpl.
  destruct (String.eqb_spec s "key_point_slide"); [subst; discriminate |].
  reflexivity.
Qed.

Lemma render_slide_not_dict topic prs e st :
  is_dict e = false -> render_slide topic prs e st = (Raise AttributeError, st).
Proof. destruct e; try discriminate; reflexivity. Qed.

(** Whatever the entry, and whether the body returns or raises: the only
    call recorded is the image search of a key point entry, any other
    entry leaves the state as it was, and a returned deck is the old one
    with one slide appended for a recognized type and none otherwise. *)
Lemma render_slide_any topic prs e st :
  st_trace (snd (render_slide topic prs e st))
    = (st_trace st ++ image_searches topic [e])%list
  /\ (is_key_point e = false -> snd (render_slide topic prs e st) = st)
  /\ (forall prs',
        fst (render_slide topic prs e st) = Ok prs' ->
        exists new,
          prs' = (prs ++ new)%list
          /\ List.length new = if recognized e then 1 else 0).
Proof.
  destruct (is_dict e) eqn:Hd.
  2:{ rewrite (render_slide_not_dict _ _ _ _ Hd). simpl.
      assert (Hk : is_key_point e = false) by (destruct e; try discriminate; reflexivity).
      unfold image_searches, filter. rewrite Hk. simpl. rewrite app_nil_r.
      repeat split. intros prs' H. discriminate. }
  destruct e as [| | | | | | d]; try discriminate.
  unfold recognized, image_searches, filter.
  destruct (is_title (PDict d)) eqn:Htitle.
  - destruct (title_is_no_other _ Htitle) as [Hs Hk]. rewrite Hk.
    rewrite render_slide_dict. cbv zeta. rewrite Htitle.
    unfold bind, lift, ret. simpl. rewrite app_nil_r.
    destruct (as_str (entry_title (PDict d))); simpl; repeat split;
      intros prs' H; inversion H; subst.
    eexists [_]. split; reflexivity.
  - destruct (is_summary (PDict d)) eqn:Hsum.
    + rewrite (summary_is_no_key_point _ Hsum).
      rewrite render_slide_dict. cbv zeta. rewrite Htitle, Hsum.
      unfold bind, lift, ret. simpl. rewrite app_nil_r.
      destruct (content_slide 1 _ _ 15 None); simpl; repeat split;
        intros prs' H; inversion H; subst.
      eexists [_]. split; reflexivity.
    + destruct (is_key_point (PDict d)) eqn:Hkey.
      * split; [apply render_key_point_query; exact Hkey |].
        split; [discriminate |].
        rewrite render_slide_dict. cbv zeta. rewrite Htitle, Hsum, Hkey.
        unfold bind at 1.
        destruct (_get_image_for_slide (entry_query topic (PDict d)) st)
          as [[r | ex] st']; [| discriminate].
        intros prs'.
        destruct r; unfold bind, lift, ret;
          destruct (content_slide _ _ _ _ _); simpl;
          intros H; inversion H; subst; eexists [_]; split; reflexivity.
      * rewrite render_slide_dict. cbv zeta. rewrite Htitle, Hsum, Hkey.
        unfold ret. simpl. rewrite app_nil_r. repeat split.
        intros prs' H. inversion H; subst. exists []. now rewrite app_nil_r.
Qed.

Lemma image_searches_are_image_searches topic l :
  Forall is_image_search (image_searches topic l).
Proof.
  unfold image_searches. induction (filter is_key_point l); simpl;
    constructor; [exact I | assumption].
Qed.

(** The loop on any list: up to the point where it stops it has recorded
    the image searches of a front part of the list and nothing else; when
    it returns, the deck it started from is still there, in place, followed
    by one slide per recognized entry. *)
Lemma for_loop_any topic l :
  forall prs st,
    (exists n,
       st_trace (snd (for_loop (render_slide topic) l prs st))
       = (st_trace st ++ image_searches topic (firstn n l))%list)
    /\ (forall prs',
          fst (for_loop (render_slide topic) l prs st) = Ok prs' ->
          (exists new,
             prs' = (prs ++ new)%list
             /\ List.length new = List.length (filter recognized l))
          /\ st_trace (snd (for_loop (render_slide topic) l prs st))
             = (st_trace st ++ image_searches topic l)%list).
Proof.
  induction l as [| e l IH]; intros prs st.
  - simpl. split.
    + exists 0. simpl. now rewrite app_nil_r.
    + intros prs' H. inversion H; subst. split.
      * exists []. now rewrite app_nil_r.
      * unfold image_searches. simpl. now rewrite app_nil_r.
  - destruct (render_slide_any topic prs e st) as (Htr & _ & Hdeck).
    simpl. unfold bind.
    destruct (render_slide topic prs e st) as [[prs1 | ex] st1] eqn:Hrun;
      simpl in Htr, Hdeck.
    + destruct (IH prs1 st1) as ((n & Hn) & Hok).
      destruct (Hdeck prs1 eq_refl) as (new1 & Hnew1 & Hlen1).
      split.
      * exists (S n). rewrite Hn, Htr. simpl firstn.
        rewrite (image_searches_cons topic e (firstn n l)).
        now rewrite <- app_assoc.
      * intros prs' H. destruct (Hok prs' H) as ((new2 & Hnew2 & Hlen2) & Htr2).
        split.
        -- exists (new1 ++ new2)%list. split.
           ++ rewrite Hnew2, Hnew1. now rewrite <- app_assoc.
           ++ rewrite length_app, Hlen1, Hlen2. simpl.
              destruct (recognized e); reflexivity.
        -- rewrite Htr2, Htr, (image_searches_cons topic e l).
           now rewrite <- app_assoc.
    + simpl. split.
      * exists 1. simpl firstn. exact Htr.
      * intros prs' H. discriminate.
Qed.

(** ** Assembly on any content *)

Lemma create_powerpoint_deck_trace
    (content : pyval) (topic : string) (st : state) :
  exists searches,
    Forall is_image_search searches
    /\ match fst (create_powerpoint_deck content topic st) with
       | Ok (Some stream) =>
           exists slides d l,
             stream = pptx_save slides
             /\ content = PDict d
             /\ dict_lookup "slides" d = Some (PList l)
             /\ List.length slides = List.length (filter recognized l)
             /\ st_trace (snd (create_powerpoint_deck content topic st))
                = (st_trace st ++ searches ++ [SaveDeck slides])%list
       | _ =>
           st_trace (snd (create_powerpoint_deck content topic st))
           = (st_trace st ++ searches)%list
       end.
Proof.
  assert (Hnil : forall r,
            match r with
            | Ok (Some stream) => False
            | _ => True
            end ->
            create_powerpoint_deck content topic st = (r, st) ->
            exists searches,
              Forall is_image_search searches
              /\ match fst (create_powerpoint_deck content topic st) with
                 | Ok (Some stream) =>
                     exists slides d l,
                       stream = pptx_save slides
                       /\ content = PDict d
                       /\ dict_lookup "slides" d = Some (PList l)
                       /\ List.length slides = List.length (filter recognized l)
                       /\ st_trace (snd (create_powerpoint_deck content topic st))
                          = (st_trace st ++ searches ++ [SaveDeck slides])%list
                 | _ =>
                     st_trace (snd (create_powerpoint_deck content topic st))
                     = (st_trace st ++ searches)%list
                 end).
  { intros r Hr Hrun. exists []. split; [constructor |]. rewrite Hrun. simpl.
    destruct r as [[stream |] | e]; [contradiction | |]; now rewrite app_nil_r. }
  destruct content as [| | | | s | items | d];
    try (apply (Hnil (Raise TypeError)); [exact I | reflexivity]).
  - (* a str *)
    destruct (str_contains "slides" s) eqn:Hin.
    + apply (Hnil (Raise TypeError)); [exact I |].
      unfold create_powerpoint_deck, bind, lift, ret. simpl. now rewrite Hin.
    + apply (Hnil (Ok None)); [exact I |].
      unfold create_powerpoint_deck, bind, lift, ret. simpl. now rewrite Hin.
  - (* a list *)
    destruct (existsb (fun x => eq_str x "slides") items) eqn:Hin.
    + apply (Hnil (Raise TypeError)); [exact I |].
      unfold create_powerpoint_deck, bind, lift, ret. simpl. now rewrite Hin.
    + apply (Hnil (Ok None)); [exact I |].
      unfold create_powerpoint_deck, bind, lift, ret. simpl. now rewrite Hin.
  - (* a dict *)
    destruct (dict_lookup "slides" d) as [v |] eqn:Hv.
    2:{ apply (Hnil (Ok None)); [exact I |].
        apply create_powerpoint_deck_rejects. left. simpl. now rewrite Hv. }
    destruct (is_list v) eqn:Hlist.
    2:{ apply (Hnil (Ok None)); [exact I |].
        apply create_powerpoint_deck_rejects. right. exists v. simpl.
        now rewrite Hv. }
    destruct v as [| | | | | l |]; try discriminate.
    destruct (for_loop_any topic l [] st) as ((n & Hn) & Hok).
    assert (Hrun : create_powerpoint_deck (PDict d) topic st =
            match for_loop (render_slide topic) l [] st with
            | (Ok prs, s') =>
                (Ok (Some (pptx_save prs)),
                 {| st_world := st_world s';
                    st_trace := (st_trace s' ++ [SaveDeck prs])%list |})
            | (Raise e, s') => (Raise e, s')
            end).
    { unfold create_powerpoint_deck, bind, lift, ret, log, py_in, py_getitem.
      rewrite Hv. simpl.
      now destruct (for_loop (render_slide topic) l [] st) as [[prs | e] s']. }
    rewrite Hrun.
    destruct (for_loop (render_slide topic) l [] st) as [[prs | e] s'] eqn:Hloop;
      simpl in *.
    + destruct (Hok prs eq_refl) as ((new & Hnew & Hlen) & Htr).
      exists (image_searches topic l).
      split; [apply image_searches_are_image_searches |].
      exists prs, d, l. repeat split; try assumption.
      * now subst.
      * rewrite Htr. now rewrite <- app_assoc.
    + exists (image_searches topic (firstn n l)).
      split; [apply image_searches_are_image_searches | exact Hn].
Qed.

(** X1. Whatever the content, [create_powerpoint_deck] records image
    searches and, after them, one [SaveDeck] exactly when it returns a
    stream; the stream is then the saved form of that deck, the content is
    a dict with a list under ['slides'], and the deck has one slide per
    entry of a recognized type.  When it returns [None] or raises, nothing
    is saved. *)
Theorem deck_saved_exactly_when_returned
    (content : pyval) (topic : string) (st : state) :
  exists searches,
    Forall is_image_search searches
    /\ match fst (create_powerpoint_deck content topic st) with
       | Ok (Some stream) =>
           exists slides d l,
             stream = pptx_save slides
             /\ content = PDict d
             /\ dict_lookup "slides" d = Some (PList l)
             /\ List.length slides = List.length (filter recognized l)
             /\ st_trace (snd (create_powerpoint_deck content topic st))
                = (st_trace st ++ searches ++ [SaveDeck slides])%list
       | _ =>
           st_trace (snd (create_powerpoint_deck content topic st))
           = (st_trace st ++ searches)%list
       end.
Proof. apply create_powerpoint_deck_trace. Qed.

(** ** The main block on any run *)

(** The save block never raises: a failing write ends in [SaveFailed]. *)
Lemma save_presentation_some data topic st :
  let name := "presentation-" ++ topic ++ ".pptx" in
  exists o st',
    save_presentation (Some data) topic st = (Ok o, st')
    /\ (o = Saved name \/ o = SaveFailed)
    /\ st_trace st' = (st_trace st ++ [WriteFile name data])%list.
Proof.
  cbv zeta. unfold save_presentation, try_except, bind, log, extern, ret.
  simpl. destruct (write_file _ data (st_world st)) as [[[] | e] w]; simpl;
    eexists _, _; repeat split; auto.
Qed.

(** X2. On every run, whatever the outside answers, the main block opens
    at most one file for writing; it does so only right after the deck was
    saved, under the name presentation-<topic>.pptx and with the bytes of
    that saved deck, and these are exactly the runs that end in [Saved] or
    [SaveFailed].  Every other run, ended by an exit, by the missing-deck
    branch or by an escaping exception, writes nothing. *)
Theorem main_writes_only_the_saved_deck (topic : string) (st : state) :
  let name := "presentation-" ++ topic ++ ".pptx" in
  exists searches,
    Forall is_image_search searches
    /\ ((st_trace (snd (main topic st)) = (st_trace st ++ searches)%list
         /\ fst (main topic st) <> Ok (Saved name)
         /\ fst (main topic st) <> Ok SaveFailed)
        \/ (exists slides,
              st_trace (snd (main topic st))
              = (st_trace st ++ searches
                 ++ [SaveDeck slides; WriteFile name (pptx_save slides)])%list
              /\ (fst (main topic st) = Ok (Saved name)
                  \/ fst (main topic st) = Ok SaveFailed))).
Proof.
  cbv zeta.
  assert (Hquiet : forall r st',
            main topic st = (r, st') ->
            st_trace st' = st_trace st ->
            r <> Ok (Saved ("presentation-" ++ topic ++ ".pptx")) ->
            r <> Ok SaveFailed ->
            exists searches,
              Forall is_image_search searches
              /\ ((st_trace (snd (main topic st)) = (st_trace st ++ searches)%list
                   /\ fst (main topic st)
                      <> Ok (Saved ("presentation-" ++ topic ++ ".pptx"))
                   /\ fst (main topic st) <> Ok SaveFailed)
                  \/ (exists slides,
                        st_trace (snd (main topic st))
                        = (st_trace st ++ searches
                           ++ [SaveDeck slides;
                               WriteFile ("presentation-" ++ topic ++ ".pptx")
                                 (pptx_save slides)])%list
                        /\ (fst (main topic st)
                            = Ok (Saved ("presentation-" ++ topic ++ ".pptx"))
                            \/ fst (main topic st) = Ok SaveFailed)))).
  { intros r st' Hrun Htr Hn1 Hn2. exists []. split; [constructor |]. left.
    rewrite Hrun. simpl. rewrite app_nil_r. auto. }
  pose proof (search_web_for_topic_keeps_trace topic st) as T1.
  destruct (search_web_for_topic topic st) as [[ctx | e] st1] eqn:H1;
    simpl in T1.
  2:{ apply (Hquiet (Raise e) st1); try discriminate; [| exact T1].
      unfold main. now rewrite (bind_raise _ _ _ _ _ H1). }
  pose proof (generate_presentation_content_keeps_trace topic ctx
                (create_presentation_plan topic ctx) st1) as T2.
  destruct (generate_presentation_content topic ctx
              (create_presentation_plan topic ctx) st1)
    as [[ic | e] st2] eqn:H2; simpl in T2.
  2:{ apply (Hquiet (Raise e) st2); try discriminate; [| congruence].
      unfold main. rewrite (bind_ok _ _ _ _ _ H1). cbv zeta.
      change (truthy (create_presentation_plan topic ctx)) with true.
      cbn [negb]. now rewrite (bind_raise _ _ _ _ _ H2). }
  destruct (truthy ic) eqn:Htruthy.
  2:{ apply (Hquiet (Ok ExitNoContent) st2); try discriminate; [| congruence].
      unfold main. rewrite (bind_ok _ _ _ _ _ H1). cbv zeta.
      change (truthy (create_presentation_plan topic ctx)) with true.
      cbn [negb]. rewrite (bind_ok _ _ _ _ _ H2). now rewrite Htruthy. }
  pose proof (add_image_queries_to_content_keeps_trace ic st2) as T3.
  destruct (add_image_queries_to_content ic st2) as [[c | e] st3] eqn:H3;
    simpl in T3.
  2:{ apply (Hquiet (Raise e) st3); try discriminate; [| congruence].
      unfold main. rewrite (bind_ok _ _ _ _ _ H1). cbv zeta.
      change (truthy (create_presentation_plan topic ctx)) with true.
      cbn [negb]. rewrite (bind_ok _ _ _ _ _ H2). rewrite Htruthy.
      cbn [negb]. now rewrite (bind_raise _ _ _ _ _ H3). }
  assert (Hmain : main topic st =
                  bind (create_powerpoint_deck c topic)
                       (fun ppt_stream => save_presentation ppt_stream topic) st3).
  { unfold main. rewrite (bind_ok _ _ _ _ _ H1). cbv zeta.
    change (truthy (create_presentation_plan topic ctx)) with true.
    cbn [negb]. rewrite (bind_ok _ _ _ _ _ H2). rewrite Htruthy.
    cbn [negb]. now rewrite (bind_ok _ _ _ _ _ H3). }
  destruct (create_powerpoint_deck_trace c topic st3) as (searches & Hs & Hdeck).
  assert (T0 : st_trace st3 = st_trace st) by congruence.
  destruct (create_powerpoint_deck c topic st3) as [[[stream |] | e] st4] eqn:H4;
    simpl in Hdeck.
  - destruct Hdeck as (slides & d & l & Hstream & _ & _ & _ & Htr4).
    destruct (save_presentation_some stream topic st4) as (o & st5 & Hsave & Ho & Htr5).
    exists searches. split; [exact Hs |]. right. exists slides.
    rewrite Hmain, (bind_ok _ _ _ _ _ H4), Hsave. simpl. split.
    + rewrite Htr5, Htr4, T0, Hstream. now rewrite <- !app_assoc.
    + destruct Ho; subst; auto.
  - exists searches. split; [exact Hs |]. left.
    rewrite Hmain, (bind_ok _ _ _ _ _ H4). simpl.
    repeat split; [congruence | discriminate | discriminate].
  - exists searches. split; [exact Hs |]. left.
    rewrite Hmain, (bind_raise _ _ _ _ _ H4). simpl.
    repeat split; [congruence | discriminate | discriminate].
Qed.

(** X3. A parsed answer that is empty in Python's sense (an empty object
    or list, [None], [False], zero, the empty string) halts the run exactly
    like an answer that does not parse: the main block takes [exit()] in
    the state the generation call left. *)
Theorem empty_content_halts_pipeline
    (topic web_context response_text : string) (st st1 : state)
    (w2 : world) (v : pyval) :
  search_web_for_topic topic st = (Ok web_context, st1) ->
  generate_content
    (content_prompt topic web_context
       (json_dumps (create_presentation_plan topic web_context)))
    (st_world st1) = (Ok response_text, w2) ->
  json_loads (strip_fences response_text) = Ok v ->
  truthy v = false ->
  main topic st
  = (Ok ExitNoContent, {| st_world := w2; st_trace := st_trace st1 |}).
Proof.
  intros Hsearch Hcall Hparse Hfalsy.
  assert (Hgen : generate_presentation_content topic web_context
                   (create_presentation_plan topic web_context) st1
                 = (Ok v, {| st_world := w2; st_trace := st_trace st1 |})).
  { unfold generate_presentation_content, try_except, bind, extern, lift.
    cbv zeta. rewrite Hcall. simpl. now rewrite Hparse. }
  unfold main. rewrite (bind_ok _ _ _ _ _ Hsearch). cbv zeta.
  change (truthy (create_presentation_plan topic web_context)) with true.
  cbn [negb]. rewrite (bind_ok _ _ _ _ _ Hgen). now rewrite Hfalsy.
Qed.

(** X4. The exit after the plan is dead: the plan is never empty, so no
    run ends there, whatever the topic and the outside. *)
Theorem plan_guard_never_fires (topic : string) (st : state) :
  fst (main topic st) <> Ok ExitNoPlan.
Proof.
  unfold main, bind.
  destruct (search_web_for_topic topic st) as [[ctx | e] st1];
    [| discriminate].
  cbv zeta.
  change (truthy (create_presentation_plan topic ctx)) with true. cbn [negb].
  destruct (generate_presentation_content topic ctx _ st1) as [[ic | e] st2];
    [| discriminate].
  destruct (truthy ic); cbn [negb]; [| discriminate].
  destruct (add_image_queries_to_content ic st2) as [[c | e] st3];
    [| discriminate].
  destruct (create_powerpoint_deck c topic st3) as [[[stream |] | e] st4];
    [| discriminate | discriminate].
  destruct (save_presentation_some stream topic st4) as (o & st5 & Hsave & Ho & _).
  rewrite Hsave. simpl. destruct Ho; subst; discriminate.
Qed.

(** ** Entries the loop cannot render *)

Lemma for_each_add_paragraph_fails size items :
  forallb is_str items = false ->
  for_each (add_paragraph size) items = Raise TypeError.
Proof.
  induction items as [| v items IH]; [discriminate |].
  intros H. cbn [forallb] in H.
  destruct v; cbn [is_str andb] in H; try reflexivity.
  cbn [for_each].
  change (add_paragraph size (PStr s)) with
    (Ok {| p_text := s; p_level := 0; p_space_after := 8;
           p_font_size := size |}).
  now rewrite (IH H).
Qed.

Lemma content_slide_fails lay title points size pic :
  is_str title && text_items points = false ->
  content_slide lay title points size pic = Raise TypeError.
Proof.
  unfold content_slide, text_items, fill_text_frame.
  destruct title; simpl; try reflexivity.
  destruct (py_iter points) as [items | e] eqn:Hiter.
  - intros H. now rewrite (for_each_add_paragraph_fails size items H).
  - intros _. destruct points; simpl in Hiter; try discriminate;
      now inversion Hiter.
Qed.

Lemma search_keys_missing_raises e :
  search_keys_missing = Raise e -> e = TypeError.
Proof.
  unfold search_keys_missing, key_contains.
  destruct GOOGLE_SEARCH_API_KEY as [k1 |]; [| congruence].
  destruct (str_contains _ k1); [discriminate |].
  destruct CUSTOM_SEARCH_ENGINE_ID as [k2 |]; [discriminate | congruence].
Qed.

(** Nothing but the key test raises out of [_get_image_for_slide]. *)
Lemma _get_image_for_slide_raises query st e st' :
  _get_image_for_slide query st = (Raise e, st') -> e = TypeError.
Proof.
  unfold _get_image_for_slide, bind, log, lift.
  destruct search_keys_missing as [[|] | e0] eqn:Hkeys.
  - discriminate.
  - unfold try_except.
    destruct (fetch_image query _) as [[r | e1] s1]; discriminate.
  - intros H. inversion H; subst. now apply search_keys_missing_raises.
Qed.

(** On an entry that is not well formed the loop body raises; a key
    point entry has had its image searched by then. *)
Lemma render_slide_ill_formed topic prs e st :
  well_formed e = false ->
  exists ex st',
    render_slide topic prs e st = (Raise ex, st')
    /\ (ex = TypeError \/ ex = AttributeError)
    /\ st_trace st' = (st_trace st ++ image_searches topic [e])%list.
Proof.
  intros Hill.
  destruct (render_slide_any topic prs e st) as (Htr & _ & _).
  destruct (is_dict e) eqn:Hd.
  2:{ rewrite (render_slide_not_dict _ _ _ _ Hd) in *. simpl in Htr.
      eexists _, _. split; [reflexivity |]. split; [now right | exact Htr]. }
  destruct e as [| | | | | | d]; try discriminate.
  assert (Hgoal : exists st', render_slide topic prs (PDict d) st
                              = (Raise TypeError, st')).
  { unfold well_formed in Hill. rewrite render_slide_dict. cbv zeta.
    destruct (is_title (PDict d)) eqn:Htitle.
    - unfold bind, lift.
      destruct (entry_title (PDict d)); try discriminate; eexists; reflexivity.
    - destruct (is_summary (PDict d)) eqn:Hsum.
      + simpl in Hill. unfold bind, lift.
        rewrite (content_slide_fails _ _ _ _ _ Hill). eexists; reflexivity.
      + destruct (is_key_point (PDict d)) eqn:Hkey; [| discriminate].
        simpl in Hill. unfold bind at 1.
        destruct (_get_image_for_slide (entry_query topic (PDict d)) st)
          as [[r | ex] st'] eqn:Hrun.
        * destruct r; unfold bind, lift;
            rewrite (content_slide_fails _ _ _ _ _ Hill); eexists; reflexivity.
        * rewrite (_get_image_for_slide_raises _ _ _ _ Hrun).
          eexists; reflexivity. }
  destruct Hgoal as (st' & Hrun). rewrite Hrun in Htr. simpl in Htr.
  exists TypeError, st'. split; [exact Hrun |]. split; [now left | exact Htr].
Qed.

Lemma for_loop_app {A S} (body : S -> A -> M S) (l1 l2 : list A) :
  forall acc st,
    for_loop body (l1 ++ l2)%list acc st
    = bind (for_loop body l1 acc) (for_loop body l2) st.
Proof.
  induction l1 as [| x l1 IH]; intros acc st; [reflexivity |].
  simpl. unfold bind.
  destruct (body acc x st) as [[acc1 | e] st1]; [| reflexivity].
  rewrite IH. reflexivity.
Qed.

Lemma image_searches_app topic l1 l2 :
  image_searches topic (l1 ++ l2)%list
  = (image_searches topic l1 ++ image_searches topic l2)%list.
Proof. unfold image_searches. now rewrite filter_app, map_app. Qed.

Lemma create_powerpoint_deck_aborts topic d before after e st :
  dict_lookup "slides" d = Some (PList (before ++ e :: after)%list) ->
  forallb well_formed before = true ->
  keys_allow before ->
  well_formed e = false ->
  exists ex st',
    create_powerpoint_deck (PDict d) topic st = (Raise ex, st')
    /\ (ex = TypeError \/ ex = AttributeError)
    /\ st_trace st'
       = (st_trace st ++ image_searches topic (before ++ [e]))%list.
Proof.
  intros Hslides Hbefore Hkeys Hill.
  destruct (assembly_loop topic before [] st Hbefore Hkeys)
    as (new & st1 & Hloop & _ & Htr1).
  destruct (render_slide_ill_formed topic ([] ++ new)%list e st1 Hill)
    as (ex & st2 & Hrun & Hex & Htr2).
  assert (Hfull : for_loop (render_slide topic) (before ++ e :: after)%list [] st
                  = (Raise ex, st2)).
  { rewrite for_loop_app, (bind_ok _ _ _ _ _ Hloop).
    cbn [for_loop]. now rewrite (bind_raise _ _ _ _ _ Hrun). }
  exists ex, st2. split; [| split; [exact Hex |]].
  - remember (before ++ e :: after)%list as l eqn:Hl.
    unfold create_powerpoint_deck, bind, lift, ret, py_in, py_getitem.
    rewrite Hslides. simpl. now rewrite Hfull.
  - rewrite Htr2, Htr1, image_searches_app. now rewrite <- app_assoc.
Qed.

(** X5. The first entry that is not well formed aborts the assembly,
    the key test returning if a key point entry stands before it: a
    [TypeError] or [AttributeError] escapes [create_powerpoint_deck], the
    slides rendered before it are dropped unsaved, and the image searches
    made up to and including that entry have already happened. *)
Theorem ill_formed_entry_aborts_assembly
    (topic : string) (d : dict) (before after : list pyval) (e : pyval)
    (st : state) :
  dict_lookup "slides" d = Some (PList (before ++ e :: after)%list) ->
  forallb well_formed before = true ->
  keys_allow before ->
  well_formed e = false ->
  exists ex st',
    create_powerpoint_deck (PDict d) topic st = (Raise ex, st')
    /\ (ex = TypeError \/ ex = AttributeError)
    /\ st_trace st'
       = (st_trace st ++ image_searches topic (before ++ [e]))%list.
Proof. apply create_powerpoint_deck_aborts. Qed.

Lemma forallb_false_split {A} (f : A -> bool) (l : list A) :
  forallb f l = false ->
  exists before x after,
    l = (before ++ x :: after)%list
    /\ forallb f before = true /\ f x = false.
Proof.
  induction l as [| a l IH]; simpl; [discriminate |].
  destruct (f a) eqn:Ha; simpl.
  - intros H. destruct (IH H) as (before & x & after & Hl & Hb & Hx).
    exists (a :: before), x, after. subst. simpl. rewrite Ha. auto.
  - intros _. exists [], a, l. auto.
Qed.

(** X6. For a content dict with a list under ['slides'], the key test
    returning if the list holds a key point entry, a deck comes back
    exactly when every entry is well formed. *)
Theorem deck_iff_entries_well_formed
    (topic : string) (d : dict) (l : list pyval) (st : state) :
  dict_lookup "slides" d = Some (PList l) ->
  keys_allow l ->
  (exists stream st',
     create_powerpoint_deck (PDict d) topic st = (Ok (Some stream), st'))
  <-> forallb well_formed l = true.
Proof.
  intros Hslides Hkeys. split.
  - intros (stream & st' & Hrun).
    destruct (forallb well_formed l) eqn:Hwf; [reflexivity |].
    destruct (forallb_false_split _ _ Hwf) as (before & e & after & Hl & Hb & He).
    subst l.
    destruct (create_powerpoint_deck_aborts topic d before after e st
                Hslides Hb (proj1 (keys_allow_app _ _ Hkeys)) He)
      as (ex & st2 & Hraise & _).
    congruence.
  - intros Hwf.
    destruct (create_powerpoint_deck_assembles topic d l st Hslides Hwf Hkeys)
      as (slides & st' & Hrun & _).
    now exists (pptx_save slides), st'.
Qed.

(** ** Pictures *)

(** X7. A picture comes back from [_get_image_for_slide] only along one
    path: the keys are configured, the query is a [str], the search request
    and the download both answer without an error status, the search
    result holds a non-empty ['items'] whose first item has a ['link'], the
    download goes to that link, and the picture is the PNG conversion of
    the downloaded body, never the body itself. *)
Theorem picture_only_from_converted_download
    (query : pyval) (st st' : state) (png : bytes) :
  _get_image_for_slide query st = (Ok (Some png), st') ->
  search_keys_missing = Ok false
  /\ exists q response w1 results items first link download,
       query = PStr q
       /\ requests_get
            (PStr ("https://www.googleapis.com/customsearch/v1?key="
                   ++ format_key GOOGLE_SEARCH_API_KEY
                   ++ "&cx=" ++ format_key CUSTOM_SEARCH_ENGINE_ID
                   ++ "&q=" ++ quote q ++ "&searchType=image&num=1"))
            [] (st_world st) = (Ok response, w1)
       /\ raise_for_status response = Ok tt
       /\ json response = Ok results
       /\ py_getitem results "items" = Ok items
       /\ truthy items = true
       /\ py_first items = Ok first
       /\ py_getitem first "link" = Ok link
       /\ requests_get link [] w1 = (Ok download, st_world st')
       /\ raise_for_status download = Ok tt
       /\ convert_to_png (content download) = Ok png.
Proof.
  unfold _get_image_for_slide, bind at 1 2, log, lift.
  destruct search_keys_missing as [[|] | e0]; [discriminate | | discriminate].
  intros Hrun. split; [reflexivity |].
  revert Hrun. unfold try_except.
  destruct (fetch_image query _) as [[[png' |] | e] s1] eqn:Hfetch;
    try discriminate.
  intros Hrun. inversion Hrun; subst. clear Hrun.
  revert Hfetch. unfold fetch_image, bind, lift, extern, ret.
  destruct query as [| | | | q | |]; try discriminate.
  cbn [py_quote st_world st_trace].
  destruct (requests_get _ [] (st_world st)) as [[response | e] w1] eqn:Hget;
    [| discriminate].
  destruct (raise_for_status response) as [[] | e] eqn:Hstatus; [| discriminate].
  destruct (json response) as [results | e] eqn:Hjson; [| discriminate].
  destruct (py_in "items" results) as [has | e] eqn:Hin; [| discriminate].
  destruct has; cbn [negb]; [| discriminate].
  destruct (py_getitem results "items") as [items | e] eqn:Hitems;
    [| discriminate].
  destruct (truthy items) eqn:Htruthy; cbn [negb]; [| discriminate].
  destruct (py_first items) as [first | e] eqn:Hfirst; [| discriminate].
  destruct (py_getitem first "link") as [link | e] eqn:Hlink; [| discriminate].
  cbn [st_world st_trace].
  destruct (requests_get link [] w1) as [[download | e] w2] eqn:Hget2;
    [| discriminate].
  destruct (raise_for_status download) as [[] | e] eqn:Hstatus2; [| discriminate].
  destruct (convert_to_png (content download)) as [out | e] eqn:Hpng;
    [| discriminate].
  intros H. inversion H; subst. simpl.
  exists q, response, w1, results, items, first, link, download.
  repeat split; assumption.
Qed.

(** X8. A key point entry for which a picture came back is rendered on
    the two-content layout: title, 18 pt bullets for the points, and that
    picture in the bounds of placeholder 2. *)
Theorem key_point_with_picture_uses_two_content
    (topic : string) (prs : deck) (d : dict) (st st' : state) (png : bytes) :
  is_key_point (PDict d) = true ->
  is_str (entry_title (PDict d)) = true ->
  text_items (entry_points (PDict d)) = true ->
  _get_image_for_slide (entry_query topic (PDict d)) st = (Ok (Some png), st') ->
  exists s,
    render_slide topic prs (PDict d) st = (Ok (add_slide prs s), st')
    /\ layout s = 3
    /\ image s = Some {| pic_png := png; pic_region := 2 |}
    /\ PStr (title_text s) = entry_title (PDict d)
    /\ map p_text (bullets s) = texts_of (entry_points (PDict d))
    /\ Forall (fun p => p_font_size p = 18) (bullets s).
Proof.
  intros Hkey Ht Hp Hrun.
  destruct (key_point_is_no_other _ Hkey) as [Hnt Hns].
  destruct (content_slide_text 3 _ _ 18
              (Some {| pic_png := png; pic_region := 2 |}) Ht Hp)
    as (s & Hs & Hst & Hlay & Himg & Htexts & Hsz).
  exists s. split; [| repeat split; assumption].
  rewrite render_slide_dict. cbv zeta. rewrite Hnt, Hns, Hkey.
  rewrite (bind_ok _ _ _ _ _ Hrun). unfold bind, lift, ret. now rewrite Hs.
Qed.

(** With a placeholder in the keys, or for a query that is not a [str]
    once the key test has returned, no request leaves the process. *)
Lemma _get_image_for_slide_no_request query st :
  search_keys_missing = Ok true
  \/ (key_test_returns = true /\ is_str query = false) ->
  _get_image_for_slide query st
  = (Ok None,
     {| st_world := st_world st;
        st_trace := (st_trace st ++ [ImageSearch query])%list |}).
Proof.
  unfold key_test_returns, _get_image_for_slide, bind at 1 2, log, lift.
  intros [Hkeys | [Hkeys Hq]].
  - now rewrite Hkeys.
  - destruct search_keys_missing as [[|] | e]; [reflexivity | | discriminate].
    unfold try_except, fetch_image, bind, lift.
    destruct query; try discriminate; reflexivity.
Qed.


Lemma render_slide_keys_missing topic prs e st :
  search_keys_missing = Ok true ->
  st_world (snd (render_slide topic prs e st)) = st_world st
  /\ (forall prs',
        fst (render_slide topic prs e st) = Ok prs' ->
        exists new,
          prs' = (prs ++ new)%list /\ Forall (fun s => image s = None) new).
Proof.
  intros Hkeys.
  destruct (is_key_point e) eqn:Hkey.
  - destruct e as [| | | | | | d]; try discriminate.
    destruct (key_point_is_no_other _ Hkey) as [Hnt Hns].
    rewrite render_slide_dict. cbv zeta. rewrite Hnt, Hns, Hkey.
    rewrite (bind_ok _ _ _ _ _
               (_get_image_for_slide_no_request _ st (or_introl Hkeys))).
    unfold bind, lift, ret, content_slide.
    destruct (as_str (entry_title (PDict d))); simpl;
      [| split; [reflexivity | discriminate]].
    destruct (fill_text_frame 18 (entry_points (PDict d))); simpl;
      (split; [reflexivity |]); intros prs' H; inversion H; subst.
    eexists [_]. split; [reflexivity |]. now constructor.
  - destruct (render_slide_any topic prs e st) as (_ & Hsame & _).
    rewrite (Hsame Hkey) at 1. split; [reflexivity |].
    destruct (is_dict e) eqn:Hd.
    2:{ rewrite (render_slide_not_dict _ _ _ _ Hd). discriminate. }
    destruct e as [| | | | | | d]; try discriminate.
    rewrite render_slide_dict. cbv zeta. rewrite Hkey.
    destruct (is_title (PDict d)).
    + unfold bind, lift, ret.
      destruct (as_str (entry_title (PDict d))); simpl;
        intros prs' H; inversion H; subst.
      eexists [_]. split; [reflexivity |]. now constructor.
    + destruct (is_summary (PDict d)).
      * unfold bind, lift, ret, content_slide.
        destruct (as_str (entry_title (PDict d))); simpl; [| discriminate].
        destruct (fill_text_frame 15 (entry_points (PDict d))); simpl;
          intros prs' H; inversion H; subst.
        eexists [_]. split; [reflexivity |]. now constructor.
      * intros prs' H. inversion H; subst. exists [].
        split; [now rewrite app_nil_r | constructor].
Qed.

Lemma for_loop_keys_missing topic l :
  search_keys_missing = Ok true ->
  forall prs st,
    st_world (snd (for_loop (render_slide topic) l prs st)) = st_world st
    /\ (forall prs',
          fst (for_loop (render_slide topic) l prs st) = Ok prs' ->
          exists new,
            prs' = (prs ++ new)%list /\ Forall (fun s => image s = None) new).
Proof.
  intros Hkeys. induction l as [| e l IH]; intros prs st.
  - simpl. split; [reflexivity |]. intros prs' H. inversion H; subst.
    exists []. split; [now rewrite app_nil_r | constructor].
  - destruct (render_slide_keys_missing topic prs e st Hkeys) as (Hw & Hd).
    simpl. unfold bind.
    destruct (render_slide topic prs e st) as [[prs1 | ex] st1]; simpl in *.
    + destruct (IH prs1 st1) as (Hw2 & Hd2). split; [congruence |].
      intros prs' H. destruct (Hd2 prs' H) as (new2 & Hn2 & Hf2).
      destruct (Hd prs1 eq_refl) as (new1 & Hn1 & Hf1).
      exists (new1 ++ new2)%list. split.
      * rewrite Hn2, Hn1. now rewrite <- app_assoc.
      * apply Forall_app. now split.
    + split; [exact Hw | discriminate].
Qed.

(** X10. With the Google keys left at their placeholders the assembly
    works offline: whatever the content, [create_powerpoint_deck] leaves
    the outside world untouched, and the deck of a well-formed list is
    complete and has no picture on any slide. *)
Theorem unconfigured_keys_assemble_offline
    (topic : string) (content : pyval) (st : state) :
  search_keys_missing = Ok true ->
  st_world (snd (create_powerpoint_deck content topic st)) = st_world st
  /\ (forall d l,
        content = PDict d ->
        dict_lookup "slides" d = Some (PList l) ->
        forallb well_formed l = true ->
        exists slides st',
          create_powerpoint_deck content topic st
          = (Ok (Some (pptx_save slides)), st')
          /\ List.length slides = List.length (filter recognized l)
          /\ Forall (fun s => image s = None) slides).
Proof.
  intros Hkeys. split.
  - destruct (is_dict content) eqn:Hd.
    2:{ unfold create_powerpoint_deck, bind, lift, ret.
        destruct content as [| | | | s | items |]; try discriminate;
          try reflexivity; simpl.
        - now destruct (str_contains "slides" s).
        - now destruct (existsb _ items). }
    destruct content as [| | | | | | d]; try discriminate.
    unfold create_powerpoint_deck, bind, lift, ret, log, py_in, py_getitem.
    destruct (dict_lookup "slides" d) as [v |]; [| reflexivity]. simpl.
    destruct v as [| | | | | l |]; try reflexivity. simpl.
    destruct (for_loop_keys_missing topic l Hkeys [] st) as (Hw & _).
    destruct (for_loop (render_slide topic) l [] st) as [[prs | e] s1];
      simpl in *; exact Hw.
  - intros d l -> Hslides Hwf.
    assert (Hallow : keys_allow l).
    { intros _. unfold key_test_returns. now rewrite Hkeys. }
    destruct (assembly_loop topic l [] st Hwf Hallow)
      as (new & st1 & Hloop & Hren & _).
    destruct (for_loop_keys_missing topic l Hkeys [] st) as (_ & Hpics).
    rewrite Hloop in Hpics.
    destruct (Hpics _ eq_refl) as (new' & Hnew & Hnone).
    simpl in Hnew. subst new'.
    exists new. eexists. split; [| split].
    + unfold create_powerpoint_deck, bind, lift, ret, log, py_in, py_getitem.
      rewrite Hslides. simpl. simpl in Hloop. rewrite Hloop. reflexivity.
    + symmetry. eapply Forall2_length. exact Hren.
    + exact Hnone.
Qed.

(** ** What the loop does with the fields of an entry *)

(** X11. Only key point entries reach the outside: rendering any other
    entry (or failing on it) leaves world and trace as they were, also
    when the entry carries an ['image_query']. *)
Theorem only_key_points_search_images
    (topic : string) (prs : deck) (e : pyval) (st : state) :
  is_key_point e = false ->
  snd (render_slide topic prs e st) = st.
Proof.
  intros Hkey.
  destruct (render_slide_any topic prs e st) as (_ & Hsame & _).
  exact (Hsame Hkey).
Qed.






(** X13. A title slide shows the entry's title over the subtitle
    "A Presentation on <topic>" and nothing else; the entry's points are
    never looked at, so any value there, well typed or not, is accepted. *)
Theorem title_slide_ignores_points
    (topic : string) (prs : deck) (d : dict) (title : string) (st : state) :
  is_title (PDict d) = true ->
  entry_title (PDict d) = PStr title ->
  render_slide topic prs (PDict d) st
  = (Ok (add_slide prs
           {| layout := 0; title_text := title;
              subtitle := Some ("A Presentation on " ++ topic);
              body := None; image := None |}),
     st).
Proof.
  intros Htitle Ht. rewrite render_slide_dict. cbv zeta.
  rewrite Htitle, Ht. reflexivity.
Qed.

(** ** ResearchAgent: the shape of the context *)

Lemma rstrip_idempotent (s : string) : rstrip (rstrip s) = rstrip s.
Proof.
  induction s as [| c s IH]; [reflexivity |].
  cbn [rstrip]. destruct (rstrip s) as [| a r] eqn:Hr.
  - destruct (is_space c) eqn:Hc; [reflexivity |].
    cbn [rstrip]. now rewrite Hc.
  - cbn [rstrip] in IH |- *.
    change (match rstrip r with
            | EmptyString => if is_space a then EmptyString
                             else String a EmptyString
            | String a0 s0 => String a (String a0 s0)
            end) with (rstrip (String a r)) in *.
    now rewrite IH.
Qed.

Lemma lstrip_head (s : string) :
  lstrip s = EmptyString
  \/ exists c r, lstrip s = String c r /\ is_space c = false.
Proof.
  induction s as [| c s IH]; [now left |].
  simpl. destruct (is_space c) eqn:Hc; [exact IH |].
  right. now exists c, s.
Qed.

Lemma strip_idempotent (s : string) : strip (strip s) = strip s.
Proof.
  unfold strip. destruct (lstrip_head s) as [H | (c & r & H & Hc)]; rewrite H.
  - reflexivity.
  - assert (Hkeep : exists r', rstrip (String c r) = String c r').
    { cbn [rstrip]. destruct (rstrip r); [rewrite Hc |]; eexists; reflexivity. }
    destruct Hkeep as (r' & Hr'). rewrite Hr'.
    cbn [lstrip]. rewrite Hc. rewrite <- Hr'. apply rstrip_idempotent.
Qed.

(** X14. With the key test returning, a web context is handed on, and
    it is never empty and never starts or ends with white space: it is the
    sentinel or a trimmed, non-empty text. *)
Theorem web_context_is_trimmed_and_not_empty (topic : string) (st : state) :
  key_test_returns = true ->
  exists context st',
    search_web_for_topic topic st = (Ok context, st')
    /\ context <> ""
    /\ strip context = context.
Proof.
  intros Hkeys. unfold search_web_for_topic.
  rewrite (bind_ok _ _ _ _ _ (_search_duckduckgo_yield topic st)).
  rewrite (bind_ok _ _ _ _ _ (_search_google_yield topic _ Hkeys)).
  cbv zeta.
  match goal with
  | |- context [strip ?x =? ""] => set (combined := strip x)
  end.
  destruct (String.eqb_spec combined "") as [Hempty | Hfull]; cbn [negb].
  - eexists _, _. split; [reflexivity |]. split; [discriminate | reflexivity].
  - eexists _, _. split; [reflexivity |]. split; [exact Hfull |].
    apply strip_idempotent.
Qed.

Lemma for_each_snippet_fails (items : list pyval) :
  forallb is_dict items = false ->
  for_each (fun item => py_get item "snippet" (PStr "")) items
  = Raise AttributeError.
Proof.
  induction items as [| v items IH]; [discriminate |].
  intros H. cbn [forallb] in H. cbn [for_each].
  destruct v; cbn [is_dict andb] in H; try reflexivity.
  rewrite (IH H). unfold py_get. now destruct (dict_lookup "snippet" d).
Qed.

(** X15. One search result that is not an object, anywhere in ['items']
    and also beyond the third place, makes Google contribute nothing: the
    comprehension visits every item before the first three are taken. *)
Theorem one_bad_google_item_drops_all_snippets
    (topic : string) (st : state) (response : response) (w1 : world)
    (results items : pyval) (l : list pyval) :
  search_keys_missing = Ok false ->
  requests_get
    (PStr ("https://www.googleapis.com/customsearch/v1?key="
           ++ format_key GOOGLE_SEARCH_API_KEY
           ++ "&cx=" ++ format_key CUSTOM_SEARCH_ENGINE_ID
           ++ "&q=" ++ quote topic))
    [] (st_world st) = (Ok response, w1) ->
  json response = Ok results ->
  py_get results "items" (PList []) = Ok items ->
  py_iter items = Ok l ->
  forallb is_dict l = false ->
  _search_google topic st
  = (Ok "", {| st_world := w1; st_trace := st_trace st |}).
Proof.
  intros Hkeys Hget Hjson Hitems Hiter Hbad.
  unfold _search_google, bind at 1, lift. rewrite Hkeys.
  unfold try_except, google_snippets, bind, extern, lift, ret.
  rewrite Hget.
  destruct (raise_for_status response) as [[] | e]; [| reflexivity].
  rewrite Hjson, Hitems, Hiter, (for_each_snippet_fails l Hbad). reflexivity.
Qed.

Lemma for_each_snippet_dicts (l : list pyval) :
  forallb is_dict l = true ->
  for_each (fun item => py_get item "snippet" (PStr "")) l
  = Ok (map snippet_of l).
Proof.
  induction l as [| v l IH]; [reflexivity |].
  intros H. cbn [forallb] in H. apply andb_prop in H. destruct H as [Hv Hl].
  destruct v; try discriminate.
  cbn [for_each map]. rewrite (IH Hl).
  unfold snippet_of, py_get. now destruct (dict_lookup "snippet" d).
Qed.

(** X16. When the Google request succeeds and every result is an object,
    Google contributes the space-joined snippets of the first three
    results, a result without ['snippet'] counting as the empty string;
    what the fourth and later results hold as snippet is never read. *)
Theorem google_reads_first_three_snippets
    (topic : string) (st : state) (response : response) (w1 : world)
    (results items : pyval) (l : list pyval) (top : list string) :
  search_keys_missing = Ok false ->
  requests_get
    (PStr ("https://www.googleapis.com/customsearch/v1?key="
           ++ format_key GOOGLE_SEARCH_API_KEY
           ++ "&cx=" ++ format_key CUSTOM_SEARCH_ENGINE_ID
           ++ "&q=" ++ quote topic))
    [] (st_world st) = (Ok response, w1) ->
  raise_for_status response = Ok tt ->
  json response = Ok results ->
  py_get results "items" (PList []) = Ok items ->
  py_iter items = Ok l ->
  forallb is_dict l = true ->
  all_str (firstn 3 (map snippet_of l)) = Ok top ->
  _search_google topic st
  = (Ok (join " " top), {| st_world := w1; st_trace := st_trace st |}).
Proof.
  intros Hkeys Hget Hstatus Hjson Hitems Hiter Hdicts Htop.
  unfold _search_google, bind at 1, lift. rewrite Hkeys.
  unfold try_except, google_snippets, bind, extern, lift, ret.
  rewrite Hget, Hstatus, Hjson, Hitems, Hiter, (for_each_snippet_dicts l Hdicts).
  destruct (map snippet_of l) as [| v snippets] eqn:Hmap.
  - simpl in Htop. inversion Htop. reflexivity.
  - unfold py_join. rewrite Htop. reflexivity.
Qed.

(** ** Fence stripping *)

Lemma replace_absent (old new s : string) :
  str_contains old s = false -> replace old new s = s.
Proof.
  unfold replace. induction s as [| c s IH]; [reflexivity |].
  intros H. cbn [str_contains] in H. apply orb_false_elim in H.
  destruct H as [Hp Hrest]. cbn [replace_from]. rewrite Hp.
  now rewrite (IH Hrest).
Qed.

Lemma is_prefix_app_l (p q s : string) :
  is_prefix (p ++ q) s = true -> is_prefix p s = true.
Proof.
  revert s. induction p as [| a p IH]; intros s; [reflexivity |].
  destruct s as [| b s]; simpl; [discriminate |].
  intros H. apply andb_prop in H. destruct H as [Hab Hrest].
  rewrite Hab. simpl. now apply IH.
Qed.

Lemma str_contains_app_l (p q s : string) :
  str_contains p s = false -> str_contains (p ++ q) s = false.
Proof.
  induction s as [| c s IH]; intros H.
  - destruct (is_prefix (p ++ q) "") eqn:Hpq.
    + apply is_prefix_app_l in Hpq.
      simpl in H. simpl in Hpq. rewrite Hpq in H. discriminate.
    + simpl. now rewrite Hpq.
  - cbn [str_contains] in H |- *. apply orb_false_elim in H.
    destruct H as [Hp Hrest]. rewrite (IH Hrest), orb_false_r.
    destruct (is_prefix (p ++ q) (String c s)) eqn:Hpq; [| reflexivity].
    apply is_prefix_app_l in Hpq. congruence.
Qed.

(** X17. A text that holds no triple backtick is only trimmed by the
    fence stripping, nothing inside it is touched. *)
Theorem text_without_fence_is_only_trimmed (response_text : string) :
  str_contains "```" (strip response_text) = false ->
  strip_fences response_text = strip response_text.
Proof.
  intros H. unfold strip_fences.
  rewrite (replace_absent "```json" "" (strip response_text)).
  - now apply replace_absent.
  - exact (str_contains_app_l "```" "json" _ H).
Qed.

Lemma replace_json_fence_plain (body : string) :
  no_backtick body = true ->
  replace_from "```json" "" 0 (body ++ "```") = body ++ "```".
Proof.
  induction body as [| c body IH]; [reflexivity |].
  intros H. cbn [no_backtick] in H. apply andb_prop in H.
  destruct H as [Hc Hrest]. apply negb_true_iff in Hc.
  change (String c body ++ "```") with (String c (body ++ "```")).
  cbn [replace_from is_prefix]. rewrite Hc. cbn [andb].
  now rewrite (IH Hrest).
Qed.

Lemma replace_fence_plain (body : string) :
  no_backtick body = true ->
  replace_from "```" "" 0 (body ++ "```") = body.
Proof.
  induction body as [| c body IH]; [reflexivity |].
  intros H. cbn [no_backtick] in H. apply andb_prop in H.
  destruct H as [Hc Hrest]. apply negb_true_iff in Hc.
  change (String c body ++ "```") with (String c (body ++ "```")).
  cbn [replace_from is_prefix]. rewrite Hc. cbn [andb].
  now rewrite (IH Hrest).
Qed.

Lemma json_fence_absent_after_body (body : string) :
  no_backtick body = true ->
  str_contains "```json" (body ++ "```") = false.
Proof.
  induction body as [| c body IH]; [reflexivity |].
  intros H. cbn [no_backtick] in H. apply andb_prop in H.
  destruct H as [Hc Hrest]. apply negb_true_iff in Hc.
  change (String c body ++ "```") with (String c (body ++ "```")).
  cbn [str_contains is_prefix]. rewrite Hc. cbn [andb orb].
  now apply IH.
Qed.

Lemma json_tag_not_from_fence (body : string) :
  is_prefix "json" (body ++ "```") = is_prefix "json" body.
Proof.
  destruct body as [| c1 [| c2 [| c3 [| c4 body]]]]; simpl;
    rewrite ?andb_false_r; reflexivity.
Qed.

Lemma json_fence_absent_in_plain_fence (body : string) :
  no_backtick body = true ->
  is_prefix "json" body = false ->
  str_contains "```json" ("```" ++ body ++ "```") = false.
Proof.
  intros Hplain Htag.
  pose proof (json_fence_absent_after_body body Hplain) as Hrest.
  pose proof (json_tag_not_from_fence body) as Hhead. rewrite Htag in Hhead.
  destruct body as [| c body]; [reflexivity |].
  cbn [no_backtick] in Hplain. apply andb_prop in Hplain.
  destruct Hplain as [Hc _]. apply negb_true_iff in Hc.
  change ("```" ++ String c body ++ "```")
    with (String "`" (String "`" (String "`" (String c body ++ "```")))).
  cbn [str_contains]. rewrite Hrest, orb_false_r.
  change (String c body ++ "```") with (String c (body ++ "```")) in *.
  cbn [is_prefix Ascii.eqb Bool.eqb andb] in *.
  rewrite Hc. cbn [andb orb]. rewrite Hhead. reflexivity.
Qed.

(** X18. An answer wrapped in a fence, with any white space around it,
    is unwrapped to exactly the body between the markers, provided the body
    holds no backtick; with the plain fence the body must not itself start
    with json, which would be taken for the tag. *)
Theorem fenced_answer_is_unwrapped (response_text body : string) :
  no_backtick body = true ->
  strip response_text = "```json" ++ body ++ "```"
  \/ (strip response_text = "```" ++ body ++ "```"
      /\ is_prefix "json" body = false) ->
  strip_fences response_text = body.
Proof.
  intros Hplain [Hwrapped | [Hwrapped Htag]]; unfold strip_fences;
    rewrite Hwrapped.
  - unfold replace.
    change (replace_from "```json" "" 0 ("```json" ++ body ++ "```"))
      with (replace_from "```json" "" 0 (body ++ "```")).
    rewrite (replace_json_fence_plain body Hplain).
    now apply replace_fence_plain.
  - rewrite (replace_absent "```json" "" _
               (json_fence_absent_in_plain_fence body Hplain Htag)).
    unfold replace.
    change (replace_from "```" "" 0 ("```" ++ body ++ "```"))
      with (replace_from "```" "" 0 (body ++ "```")).
    now apply replace_fence_plain.
Qed.

Lemma fence_prefix_split (s : string) :
  is_prefix "```" s = true -> exists t, s = "```" ++ t.
Proof.
  destruct s as [| c1 [| c2 [| c3 t]]]; cbn [is_prefix];
    rewrite ?andb_false_r; try discriminate.
  intros H. apply andb_prop in H. destruct H as [H1 H].
  apply andb_prop in H. destruct H as [H2 H].
  apply andb_prop in H. destruct H as [H3 _].
  apply Ascii.eqb_eq in H1, H2, H3. subst. now exists t.
Qed.

Lemma replace_fence_skips (t : string) :
  replace_from "```" "" 0 ("```" ++ t) = replace_from "```" "" 0 t.
Proof. reflexivity. Qed.

Lemma replace_fence_keeps (c : ascii) (s : string) :
  is_prefix "```" (String c s) = false ->
  replace_from "```" "" 0 (String c s)
  = String c (replace_from "```" "" 0 s).
Proof. intros H. cbn [replace_from]. now rewrite H. Qed.

Lemma one_backtick_was_there (s : string) :
  is_prefix "`" (replace_from "```" "" 0 s) = true -> is_prefix "`" s = true.
Proof.
  destruct (is_prefix "```" s) eqn:Hp.
  - destruct (fence_prefix_split s Hp) as (t & ->). reflexivity.
  - destruct s as [| c s]; [discriminate |].
    now rewrite (replace_fence_keeps c s Hp).
Qed.

Lemma two_backticks_were_there (s : string) :
  is_prefix "``" (replace_from "```" "" 0 s) = true -> is_prefix "``" s = true.
Proof.
  destruct (is_prefix "```" s) eqn:Hp.
  - destruct (fence_prefix_split s Hp) as (t & ->). reflexivity.
  - destruct s as [| c s]; [discriminate |].
    rewrite (replace_fence_keeps c s Hp).
    cbn [is_prefix]. intros H. apply andb_prop in H. destruct H as [Hc Hrest].
    rewrite Hc. cbn [andb]. now apply one_backtick_was_there.
Qed.

Lemma no_fence_after_replace (n : nat) :
  forall s,
    String.length s <= n ->
    str_contains "```" (replace_from "```" "" 0 s) = false.
Proof.
  induction n as [| n IH]; intros s Hlen.
  - destruct s; [reflexivity | simpl in Hlen; lia].
  - destruct (is_prefix "```" s) eqn:Hp.
    + destruct (fence_prefix_split s Hp) as (t & ->).
      rewrite replace_fence_skips. apply IH. simpl in Hlen. lia.
    + destruct s as [| c s]; [reflexivity |].
      rewrite (replace_fence_keeps c s Hp).
      cbn [str_contains]. rewrite (IH s) by (simpl in Hlen; lia).
      rewrite orb_false_r.
      destruct (is_prefix "```" (String c (replace_from "```" "" 0 s)))
        eqn:Hagain; [| reflexivity].
      cbn [is_prefix] in Hagain, Hp. apply andb_prop in Hagain.
      destruct Hagain as [Hc Htwo].
      apply two_backticks_were_there in Htwo.
      cbn [is_prefix] in Htwo. rewrite Hc, Htwo in Hp. discriminate.
Qed.

(** X19. Whatever the answer, no triple backtick is left after the fence
    stripping: removing the markers cannot bring the backticks around them
    together into a new one. *)
Theorem no_fence_left_after_stripping (response_text : string) :
  str_contains "```" (strip_fences response_text) = false.
Proof.
  unfold strip_fences, replace. eapply no_fence_after_replace. apply le_n.
Qed.

(** ** The stages in the main block *)

(** X20. A failure of the generation call itself, like an answer that
    does not parse, ends the run at the exit after content generation, in
    the state the call left. *)
Theorem failed_generation_call_halts_pipeline
    (topic web_context : string) (st st1 : state) (w2 : world) (e : exn) :
  search_web_for_topic topic st = (Ok web_context, st1) ->
  generate_content
    (content_prompt topic web_context
       (json_dumps (create_presentation_plan topic web_context)))
    (st_world st1) = (Raise e, w2) ->
  main topic st
  = (Ok ExitNoContent, {| st_world := w2; st_trace := st_trace st1 |}).
Proof.
  intros Hsearch Hcall.
  assert (Hgen : generate_presentation_content topic web_context
                   (create_presentation_plan topic web_context) st1
                 = (Ok PNone, {| st_world := w2; st_trace := st_trace st1 |})).
  { unfold generate_presentation_content, try_except, bind, extern, lift.
    cbv zeta. now rewrite Hcall. }
  unfold main. rewrite (bind_ok _ _ _ _ _ Hsearch). cbv zeta.
  change (truthy (create_presentation_plan topic web_context)) with true.
  cbn [negb]. now rewrite (bind_ok _ _ _ _ _ Hgen).
Qed.

(** X21. A failed enrichment does not stop the run: the main block goes
    on to assemble and save the content as it was generated. *)
Theorem failed_enrichment_assembles_generated_content
    (topic web_context : string) (st st1 st2 : state)
    (initial_content : pyval) :
  search_web_for_topic topic st = (Ok web_context, st1) ->
  generate_presentation_content topic web_context
    (create_presentation_plan topic web_context) st1
    = (Ok initial_content, st2) ->
  truthy initial_content = true ->
  enrichment_fails initial_content (st_world st2) ->
  exists st3,
    st_trace st3 = st_trace st
    /\ main topic st
       = bind (create_powerpoint_deck initial_content topic)
              (fun ppt_stream => save_presentation ppt_stream topic) st3.
Proof.
  intros Hsearch Hgen Htruthy Hfail.
  assert (Henrich : exists st3,
             add_image_queries_to_content initial_content st2
             = (Ok initial_content, st3)
             /\ st_trace st3 = st_trace st2).
  { revert Hfail.
    unfold enrichment_fails, add_image_queries_to_content, try_except, bind,
      extern, lift, ret.
    destruct (generate_content _ (st_world st2)) as [[txt | e] w]; simpl.
    - destruct (json_loads (strip_fences txt)); [intros [] |].
      intros _. eexists. split; reflexivity.
    - intros _. eexists. split; reflexivity. }
  destruct Henrich as (st3 & Henrich & Htr3). exists st3. split.
  - pose proof (search_web_for_topic_keeps_trace topic st) as H1.
    pose proof (generate_presentation_content_keeps_trace topic web_context
                  (create_presentation_plan topic web_context) st1) as H2.
    rewrite Hsearch in H1. rewrite Hgen in H2. simpl in *. congruence.
  - unfold main. rewrite (bind_ok _ _ _ _ _ Hsearch). cbv zeta.
    change (truthy (create_presentation_plan topic web_context)) with true.
    cbn [negb]. rewrite (bind_ok _ _ _ _ _ Hgen). rewrite Htruthy.
    cbn [negb]. now rewrite (bind_ok _ _ _ _ _ Henrich).
Qed.

(** X22. Content that is not a dict never yields a deck: the guard
    answers [None] when ['slides' in content] is false, and otherwise a
    [TypeError] escapes, from the membership test on [None], a boolean or a
    number, and from the subscript on a list or string that holds
    ['slides']. *)
Theorem non_dict_content_never_assembles
    (content : pyval) (topic : string) (st : state) :
  is_dict content = false ->
  create_powerpoint_deck content topic st
  = (match py_in "slides" content with
     | Ok false => Ok None
     | _ => Raise TypeError
     end, st).
Proof.
  unfold create_powerpoint_deck, bind, lift, ret.
  destruct content as [| | | | s | items |]; try discriminate; intros _;
    try reflexivity; simpl.
  - now destruct (str_contains "slides" s).
  - now destruct (existsb _ items).
Qed.

End Coverage.

(** * Instances on the sample inputs *)

Lemma well_formed_slides_are_assembled_witness :
  dict_lookup "slides" [("slides", PList sample_slides)]
    = Some (PList sample_slides)
  /\ forallb well_formed sample_slides = true
  /\ @keys_allow offline sample_slides
  /\ @assembles offline "Quantum Computing"
       (PDict [("slides", PList sample_slides)]) sample_slides (@start offline tt).
Proof.
  assert (Hkeys : @keys_allow offline sample_slides) by (intros _; reflexivity).
  split; [reflexivity | split; [reflexivity | split; [exact Hkeys |]]].
  apply (@well_formed_slides_are_assembled offline);
    [reflexivity | reflexivity | exact Hkeys].
Defined.

(** A list under ['slides'] is not enough: an overview entry whose
    ['points'] is [None] stops the loop with a [TypeError], and no deck
    comes back.  Nor are well-formed entries enough when a search key is
    unset: the first key point entry of the sample slides then stops the
    loop with the [TypeError] of the key test. *)
Lemma null_points_abort_assembly :
  dict_lookup "slides" [("slides", PList null_points_slides)]
    = Some (PList null_points_slides)
  /\ @create_powerpoint_deck offline
       (PDict [("slides", PList null_points_slides)]) "Quantum Computing"
       (@start offline tt)
     = (Raise TypeError, @start offline tt)
  /\ ~ @assembles offline "Quantum Computing"
         (PDict [("slides", PList null_points_slides)]) null_points_slides
         (@start offline tt)
  /\ forallb well_formed sample_slides = true
  /\ @create_powerpoint_deck keys_unset
       (PDict [("slides", PList sample_slides)]) "Quantum Computing"
       (@start keys_unset tt)
     = (Raise TypeError,
        @Build_state keys_unset tt [ImageSearch (PStr "Quantum Computing")])
  /\ ~ @assembles keys_unset "Quantum Computing"
         (PDict [("slides", PList sample_slides)]) sample_slides
         (@start keys_unset tt).
Proof.
  split; [reflexivity | split; [reflexivity | split]].
  - intros (slides & st' & Hrun & _).
    vm_compute in Hrun. discriminate Hrun.
  - split; [reflexivity | split; [reflexivity |]].
    intros (slides & st' & Hrun & _).
    vm_compute in Hrun. discriminate Hrun.
Qed.

Lemma guard_raises_where_membership_is_undefined_witness :
  py_in "slides" PNone = Raise TypeError
  /\ @create_powerpoint_deck null_enrichment PNone "Quantum Computing"
       (@start null_enrichment tt)
     = (Raise TypeError, @start null_enrichment tt)
  /\ @add_image_queries_to_content null_enrichment
       (PDict [("slides", PList sample_slides)]) (@start null_enrichment tt)
     = (Ok PNone, @start null_enrichment tt)
  /\ @main null_enrichment "Quantum Computing" (@start null_enrichment tt)
     = (Raise TypeError, @start null_enrichment tt).
Proof.
  destruct (@guard_raises_where_membership_is_undefined null_enrichment
              "Quantum Computing" PNone eq_refl)
    as (Hdeck & Hmain).
  split; [reflexivity |].
  split; [apply Hdeck |].
  split; [reflexivity |].
  refine (proj1 (Hmain (@start null_enrichment tt) (@start null_enrichment tt)
                   (@start null_enrichment tt) (@start null_enrichment tt)
                   "No specific web context found."
                   (PDict [("slides", PList sample_slides)]) _ _ _ _));
    reflexivity.
Defined.

Lemma no_slides_list_no_artifact_witness :
  lacks_slides_list (PDict [("deck", PList [])])
  /\ lacks_slides_list (PDict [("slides", PStr "seven slides")])
  /\ @create_powerpoint_deck misdirected (PDict [("deck", PList [])])
       "Quantum Computing" (@start misdirected tt)
     = (Ok None, @start misdirected tt)
  /\ @main misdirected "Quantum Computing" (@start misdirected tt)
     = (Ok NotAssembled, @start misdirected tt).
Proof.
  assert (Hbad : lacks_slides_list (PDict [("deck", PList [])]))
    by (left; reflexivity).
  destruct (@no_slides_list_no_artifact misdirected "Quantum Computing" _ Hbad)
    as (Hdeck & _ & Hmain).
  split; [exact Hbad |].
  split; [right; now exists (PStr "seven slides") |].
  split; [apply Hdeck |].
  refine (proj1 (Hmain (@start misdirected tt) (@start misdirected tt)
                   (@start misdirected tt) (@start misdirected tt)
                   "No specific web context found."
                   (PDict [("deck", PList [])]) _ _ _ _)); reflexivity.
Defined.

Lemma image_failure_falls_back_to_single_content_witness :
  let d := [("type", PStr "key_point_slide"); ("title", PStr "Superposition");
            ("points", PList [PStr "A qubit holds both values."])] in
  exists s,
    @render_slide offline "Quantum Computing" [] (PDict d) (@start offline tt)
      = (Ok [s],
         @Build_state offline tt [ImageSearch (PStr "Quantum Computing")])
    /\ layout s = 1 /\ image s = None
    /\ Forall (fun p => p_font_size p = 18) (bullets s).
Proof.
  cbv zeta.
  destruct (@image_failure_falls_back_to_single_content offline
              "Quantum Computing" []
              [("type", PStr "key_point_slide"); ("title", PStr "Superposition");
               ("points", PList [PStr "A qubit holds both values."])]
              (@start offline tt) eq_refl eq_refl eq_refl
              (or_intror (conj eq_refl (fun t => I))))
    as ((s & st' & Hrun & Hlay & Himg & Hsz & _) & _).
  exists s. vm_compute in Hrun. inversion Hrun; subst.
  repeat split; try reflexivity.
  repeat constructor.
Defined.

(** A failed image search is not all a key point entry needs to be
    rendered.  With no network, an entry whose ['points'] is [None] gets no
    picture and then stops the assembly with a [TypeError]; and with the
    search keys unset the call of [_get_image_for_slide] itself raises, for
    an entry that has a title and points. *)
Lemma image_failure_does_not_always_fall_back :
  is_key_point null_points_key_point = true
  /\ @image_unavailable offline
       (entry_query "Quantum Computing" null_points_key_point) tt
  /\ @create_powerpoint_deck offline
       (PDict [("slides", PList [null_points_key_point])]) "Quantum Computing"
       (@start offline tt)
     = (Raise TypeError,
        @Build_state offline tt [ImageSearch (PStr "Quantum Computing")])
  /\ @_get_image_for_slide keys_unset (PStr "Quantum Computing")
       (@start keys_unset tt)
     = (Raise TypeError,
        @Build_state keys_unset tt [ImageSearch (PStr "Quantum Computing")])
  /\ @create_powerpoint_deck keys_unset
       (PDict [("slides",
                PList [entry "key_point_slide" "Superposition"
                         ["A qubit holds both values."]])])
       "Quantum Computing" (@start keys_unset tt)
     = (Raise TypeError,
        @Build_state keys_unset tt [ImageSearch (PStr "Quantum Computing")]).
Proof.
  split; [reflexivity |].
  split; [right; split; [reflexivity | intros t; exact I] |].
  repeat split; reflexivity.
Qed.

Lemma absent_image_query_uses_topic_witness :
  st_trace
    (snd (@render_slide offline "Quantum Computing" []
            (PDict [("type", PStr "key_point_slide"); ("title", PStr "Qubits")])
            (@start offline tt)))
  = [ImageSearch (PStr "Quantum Computing")].
Proof.
  apply (@absent_image_query_uses_topic offline "Quantum Computing" []
           [("type", PStr "key_point_slide"); ("title", PStr "Qubits")]
           (@start offline tt)); reflexivity.
Defined.

Lemma present_image_query_is_passed_verbatim_witness :
  st_trace
    (snd (@render_slide offline "Quantum Computing" []
            (PDict [("type", PStr "key_point_slide"); ("image_query", PNone)])
            (@start offline tt)))
  = [ImageSearch PNone]
  /\ st_trace
       (snd (@render_slide offline "Quantum Computing" []
               (PDict [("type", PStr "key_point_slide");
                       ("image_query", PStr "")])
               (@start offline tt)))
     = [ImageSearch (PStr "")].
Proof.
  split.
  - apply (@present_image_query_is_passed_verbatim offline "Quantum Computing"
             [] [("type", PStr "key_point_slide"); ("image_query", PNone)]
             PNone (@start offline tt)); reflexivity.
  - apply (@present_image_query_is_passed_verbatim offline "Quantum Computing"
             [] [("type", PStr "key_point_slide"); ("image_query", PStr "")]
             (PStr "") (@start offline tt)); reflexivity.
Defined.

Lemma enrichment_failure_returns_input_witness :
  exists st',
    @add_image_queries_to_content garbled
      (PDict [("slides", PList sample_slides)]) (@start garbled tt)
    = (Ok (PDict [("slides", PList sample_slides)]), st')
    /\ st_trace st' = [].
Proof.
  apply (@enrichment_failure_returns_input garbled
           (PDict [("slides", PList sample_slides)]) (@start garbled tt)).
  exact I.
Defined.

Lemma unparsable_content_halts_pipeline_witness :
  @main garbled "Quantum Computing" (@start garbled tt) = (Ok ExitNoContent, @start garbled tt).
Proof.
  destruct (@unparsable_content_halts_pipeline garbled "Quantum Computing"
              (@start garbled tt) (@start garbled tt) "No specific web context found."
              eq_refl I)
    as (st2 & Hgen & Hmain & _).
  vm_compute in Hgen. inversion Hgen; subst. exact Hmain.
Defined.

Lemma missing_title_or_points_still_renders_witness :
  recognized (PDict [("type", PStr "conclusion_slide")]) = true
  /\ (exists s st',
        @render_slide offline "Quantum Computing" []
          (PDict [("type", PStr "conclusion_slide")]) (@start offline tt)
        = (Ok [s], st')
        /\ title_text s = "Untitled Slide")
  /\ (exists s st',
        @render_slide offline "Quantum Computing" []
          (PDict [("type", PStr "conclusion_slide")]) (@start offline tt)
        = (Ok [s], st')
        /\ bullets s = []).
Proof.
  split; [reflexivity |].
  destruct (@missing_title_or_points_still_renders offline "Quantum Computing"
              [] [("type", PStr "conclusion_slide")] (@start offline tt)
              eq_refl (fun _ => eq_refl))
    as (Htitle & Hpoints & _).
  split.
  - exact (Htitle eq_refl (or_intror eq_refl)).
  - exact (Hpoints eq_refl eq_refl).
Defined.

(** A missing key is not all that decides.  A conclusion entry without
    ['title'] whose ['points'] is [None] is not rendered under the default
    title: the loop over the points raises a [TypeError].  And a key point
    entry that lacks both keys stops the assembly when a search key is
    unset. *)
Lemma missing_title_does_not_always_render :
  recognized untitled_null_points = true
  /\ dict_lookup "title" [("type", PStr "conclusion_slide"); ("points", PNone)]
     = None
  /\ @create_powerpoint_deck offline
       (PDict [("slides", PList [untitled_null_points])]) "Quantum Computing"
       (@start offline tt)
     = (Raise TypeError, @start offline tt)
  /\ recognized bare_key_point = true
  /\ @create_powerpoint_deck keys_unset
       (PDict [("slides", PList [bare_key_point])]) "Quantum Computing"
       (@start keys_unset tt)
     = (Raise TypeError,
        @Build_state keys_unset tt [ImageSearch (PStr "Quantum Computing")]).
Proof. repeat split; reflexivity. Qed.

Lemma unset_search_key_aborts_aggregation_witness :
  @key_test_returns keys_unset = false
  /\ @_search_duckduckgo keys_unset "Quantum Computing" (@start keys_unset tt)
     = (Ok "", @start keys_unset tt)
  /\ @search_web_for_topic keys_unset "Quantum Computing" (@start keys_unset tt)
     = (Raise TypeError, @start keys_unset tt).
Proof.
  split; [reflexivity | split; [reflexivity |]].
  exact (@unset_search_key_aborts_aggregation keys_unset "Quantum Computing"
           (@start keys_unset tt) eq_refl).
Defined.

Lemma search_web_for_topic_aggregates_witness :
  @search_web_for_topic offline "Quantum Computing" (@start offline tt)
  = (Ok "No specific web context found.", @start offline tt)
  /\ @search_web_for_topic duckduckgo_only "Quantum Computing"
       (@start duckduckgo_only tt)
     = (Ok "Qubits superpose. Gates are unitary.  Noise decoheres.",
        @start duckduckgo_only tt).
Proof.
  split.
  - exact (proj1 (@search_web_for_topic_aggregates offline "Quantum Computing"
                    (@start offline tt) eq_refl)).
  - exact (proj1 (@search_web_for_topic_aggregates duckduckgo_only
                    "Quantum Computing" (@start duckduckgo_only tt) eq_refl)).
Defined.

(** * Instances of the further properties *)

Lemma main_writes_only_the_saved_deck_witness :
  fst (@main gallery "Quantum Computing" (@start gallery tt))
    = Ok (Saved "presentation-Quantum Computing.pptx")
  /\ exists searches slides,
       st_trace (snd (@main gallery "Quantum Computing" (@start gallery tt)))
       = (searches
          ++ [SaveDeck slides;
              WriteFile "presentation-Quantum Computing.pptx"
                (@pptx_save gallery slides)])%list.
Proof.
  split; [reflexivity |].
  destruct (@main_writes_only_the_saved_deck gallery "Quantum Computing"
              (@start gallery tt))
    as (searches & _ & [(_ & Hno & _) | (slides & Htr & _)]).
  - exfalso. apply Hno. reflexivity.
  - exists searches, slides. exact Htr.
Defined.

Lemma empty_content_halts_pipeline_witness :
  @main empty_answer "Quantum Computing" (@start empty_answer tt)
  = (Ok ExitNoContent, @start empty_answer tt).
Proof.
  exact (@empty_content_halts_pipeline empty_answer "Quantum Computing"
           "No specific web context found." "{}"
           (@start empty_answer tt) (@start empty_answer tt) tt (PDict [])
           eq_refl eq_refl eq_refl eq_refl).
Defined.

Lemma ill_formed_entry_aborts_assembly_witness :
  exists ex st',
    @create_powerpoint_deck offline
      (PDict [("slides", PList numbered_title_slides)]) "Quantum Computing"
      (@start offline tt)
    = (Raise ex, st')
    /\ (ex = TypeError \/ ex = AttributeError)
    /\ st_trace st'
       = [ImageSearch (PStr "Quantum Computing");
          ImageSearch (PStr "Quantum Computing")].
Proof.
  exact (@ill_formed_entry_aborts_assembly offline "Quantum Computing"
           [("slides", PList numbered_title_slides)]
           [entry "title_slide" "Quantum Computing" [];
            entry "key_point_slide" "Superposition"
              ["A qubit holds both values."]]
           [entry "conclusion_slide" "Conclusion" []]
           (PDict [("type", PStr "key_point_slide"); ("title", PInt 3)])
           (@start offline tt) eq_refl eq_refl (fun _ => eq_refl) eq_refl).
Defined.

Lemma deck_iff_entries_well_formed_witness :
  (exists stream st',
     @create_powerpoint_deck offline (PDict [("slides", PList sample_slides)])
       "Quantum Computing" (@start offline tt)
     = (Ok (Some stream), st'))
  /\ ~ (exists stream st',
          @create_powerpoint_deck offline
            (PDict [("slides", PList numbered_title_slides)])
            "Quantum Computing" (@start offline tt)
          = (Ok (Some stream), st')).
Proof.
  split.
  - apply (@deck_iff_entries_well_formed offline "Quantum Computing"
             [("slides", PList sample_slides)] sample_slides
             (@start offline tt) eq_refl (fun _ => eq_refl)).
    reflexivity.
  - intros H.
    apply (@deck_iff_entries_well_formed offline "Quantum Computing"
             [("slides", PList numbered_title_slides)] numbered_title_slides
             (@start offline tt) eq_refl (fun _ => eq_refl)) in H.
    discriminate H.
Defined.

Lemma picture_only_from_converted_download_witness :
  @_get_image_for_slide gallery (PStr "laser lab") (@start gallery tt)
  = (Ok (Some [x89; x50; x4a; x46]),
     @Build_state gallery tt [ImageSearch (PStr "laser lab")])
  /\ exists download,
       @convert_to_png gallery (content download) = Ok [x89; x50; x4a; x46].
Proof.
  split; [reflexivity |].
  destruct (@picture_only_from_converted_download gallery (PStr "laser lab")
              (@start gallery tt)
              (@Build_state gallery tt [ImageSearch (PStr "laser lab")])
              [x89; x50; x4a; x46] eq_refl)
    as (_ & q & response & w1 & results & items & first & link & download & H).
  exists download. apply H.
Defined.

Lemma key_point_with_picture_uses_two_content_witness :
  exists s,
    @render_slide gallery "Quantum Computing" []
      (entry "key_point_slide" "Superposition" ["A qubit holds both values."])
      (@start gallery tt)
    = (Ok [s], @Build_state gallery tt [ImageSearch (PStr "Quantum Computing")])
    /\ layout s = 3
    /\ image s = Some {| pic_png := [x89; x50; x4a; x46]; pic_region := 2 |}.
Proof.
  destruct (@key_point_with_picture_uses_two_content gallery "Quantum Computing"
              []
              [("type", PStr "key_point_slide"); ("title", PStr "Superposition");
               ("points", PList [PStr "A qubit holds both values."])]
              (@start gallery tt)
              (@Build_state gallery tt [ImageSearch (PStr "Quantum Computing")])
              [x89; x50; x4a; x46] eq_refl eq_refl eq_refl eq_refl)
    as (s & Hrun & Hlay & Himg & _).
  exists s. repeat split; assumption.
Defined.


Lemma unconfigured_keys_assemble_offline_witness :
  @search_keys_missing unconfigured = Ok true
  /\ exists slides st',
       @create_powerpoint_deck unconfigured
         (PDict [("slides", PList sample_slides)]) "Quantum Computing"
         (@start unconfigured tt)
       = (Ok (Some (@pptx_save unconfigured slides)), st')
       /\ List.length slides = 5
       /\ Forall (fun s => image s = None) slides.
Proof.
  split; [reflexivity |].
  exact (proj2 (@unconfigured_keys_assemble_offline unconfigured
                  "Quantum Computing" (PDict [("slides", PList sample_slides)])
                  (@start unconfigured tt) eq_refl)
           [("slides", PList sample_slides)] sample_slides
           eq_refl eq_refl eq_refl).
Defined.

Lemma only_key_points_search_images_witness :
  snd (@render_slide gallery "Quantum Computing" []
         (PDict [("type", PStr "overview_slide");
                 ("image_query", PStr "laser lab")])
         (@start gallery tt))
  = @start gallery tt.
Proof.
  exact (@only_key_points_search_images gallery "Quantum Computing" []
           (PDict [("type", PStr "overview_slide");
                   ("image_query", PStr "laser lab")])
           (@start gallery tt) eq_refl).
Defined.


Lemma title_slide_ignores_points_witness :
  @render_slide offline "Quantum Computing" []
    (PDict [("type", PStr "title_slide"); ("title", PStr "Qubits");
            ("points", PInt 7)])
    (@start offline tt)
  = (Ok [{| layout := 0; title_text := "Qubits";
            subtitle := Some "A Presentation on Quantum Computing";
            body := None; image := None |}],
     @start offline tt).
Proof.
  exact (@title_slide_ignores_points offline "Quantum Computing" []
           [("type", PStr "title_slide"); ("title", PStr "Qubits");
            ("points", PInt 7)]
           "Qubits" (@start offline tt) eq_refl eq_refl).
Defined.

Lemma web_context_is_trimmed_and_not_empty_witness :
  @key_test_returns duckduckgo_only = true
  /\ exists context st',
       @search_web_for_topic duckduckgo_only "Quantum Computing"
         (@start duckduckgo_only tt)
       = (Ok context, st')
       /\ context <> ""
       /\ strip context = context.
Proof.
  split; [reflexivity |].
  destruct (@web_context_is_trimmed_and_not_empty duckduckgo_only
              "Quantum Computing" (@start duckduckgo_only tt) eq_refl)
    as (context & st' & Hrun & Hne & Htrim).
  exists context, st'. repeat split; assumption.
Defined.

Lemma one_bad_google_item_drops_all_snippets_witness :
  @_search_google google_stray "Quantum Computing" (@start google_stray tt)
  = (Ok "", @start google_stray tt).
Proof.
  exact (@one_bad_google_item_drops_all_snippets google_stray
           "Quantum Computing" (@start google_stray tt)
           (page (Ok (PDict [("items", stray_results)])) []) tt
           (PDict [("items", stray_results)]) stray_results
           [PDict [("snippet", PStr "Qubits superpose.")];
            PDict [("snippet", PStr "Gates are unitary.")];
            PDict [("snippet", PStr "Noise decoheres.")];
            PStr "advertisement"]
           eq_refl eq_refl eq_refl eq_refl eq_refl eq_refl).
Defined.

Lemma google_reads_first_three_snippets_witness :
  @_search_google google_four "Quantum Computing" (@start google_four tt)
  = (Ok "Qubits superpose.  Noise decoheres.", @start google_four tt).
Proof.
  exact (@google_reads_first_three_snippets google_four
           "Quantum Computing" (@start google_four tt)
           (page (Ok (PDict [("items", four_results)])) []) tt
           (PDict [("items", four_results)]) four_results
           [PDict [("snippet", PStr "Qubits superpose.")];
            PDict [("title", PStr "No snippet here")];
            PDict [("snippet", PStr "Noise decoheres.")];
            PDict [("snippet", PInt 4)]]
           ["Qubits superpose."; ""; "Noise decoheres."]
           eq_refl eq_refl eq_refl eq_refl eq_refl eq_refl eq_refl eq_refl).
Defined.

Lemma text_without_fence_is_only_trimmed_witness :
  strip_fences "  {`slides`: []}  " = "{`slides`: []}".
Proof.
  exact (text_without_fence_is_only_trimmed "  {`slides`: []}  " eq_refl).
Defined.

Lemma fenced_answer_is_unwrapped_witness :
  strip_fences " ```json{1: 2}```  " = "{1: 2}"
  /\ strip_fences "```[1, 2]```" = "[1, 2]".
Proof.
  split.
  - exact (fenced_answer_is_unwrapped " ```json{1: 2}```  " "{1: 2}"
             eq_refl (or_introl eq_refl)).
  - exact (fenced_answer_is_unwrapped "```[1, 2]```" "[1, 2]"
             eq_refl (or_intror (conj eq_refl eq_refl))).
Defined.

Lemma failed_generation_call_halts_pipeline_witness :
  @main offline "Quantum Computing" (@start offline tt)
  = (Ok ExitNoContent, @start offline tt).
Proof.
  exact (@failed_generation_call_halts_pipeline offline "Quantum Computing"
           "No specific web context found."
           (@start offline tt) (@start offline tt) tt
           (OtherError "unavailable") eq_refl eq_refl).
Defined.

Lemma failed_enrichment_assembles_generated_content_witness :
  exists st3,
    @main enrichment_down "Quantum Computing" (@start enrichment_down tt)
    = @bind enrichment_down _ _
        (@create_powerpoint_deck enrichment_down
           (PDict [("slides", PList sample_slides)]) "Quantum Computing")
        (fun ppt_stream =>
           @save_presentation enrichment_down ppt_stream "Quantum Computing")
        st3.
Proof.
  destruct (@failed_enrichment_assembles_generated_content enrichment_down
              "Quantum Computing" "No specific web context found."
              (@start enrichment_down tt) (@start enrichment_down tt)
              (@start enrichment_down tt)
              (PDict [("slides", PList sample_slides)])
              eq_refl eq_refl eq_refl I)
    as (st3 & _ & Hmain).
  now exists st3.
Defined.

Lemma non_dict_content_never_assembles_witness :
  @create_powerpoint_deck offline (PInt 5) "Quantum Computing"
    (@start offline tt)
  = (Raise TypeError, @start offline tt)
  /\ @create_powerpoint_deck offline (PList sample_slides) "Quantum Computing"
       (@start offline tt)
     = (Ok None, @start offline tt)
  /\ @create_powerpoint_deck offline (PStr "seven slides") "Quantum Computing"
       (@start offline tt)
     = (Raise TypeError, @start offline tt).
Proof.
  split; [| split].
  - exact (@non_dict_content_never_assembles offline (PInt 5)
             "Quantum Computing" (@start offline tt) eq_refl).
  - exact (@non_dict_content_never_assembles offline (PList sample_slides)
             "Quantum Computing" (@start offline tt) eq_refl).
  - exact (@non_dict_content_never_assembles offline (PStr "seven slides")
             "Quantum Computing" (@start offline tt) eq_refl).
Defined.
